(** * Shelly Services: authentication switch and connectivity sensor

    A shallow embedding of [custom_components/shelly_services/switch.py]
    and [custom_components/shelly_services/sensor.py].

    The two entity classes talk to a device over HTTP, log, and mutate
    their own attributes.  Each coroutine is embedded as a function in a
    state-and-exception monad over a [world]: the entity object ([self]),
    the network calls made so far, the log, and the number of state
    pushes to the host platform.  The device is a function from the calls
    made so far and the next request to what that request gets. *)

From Stdlib Require Import ZArith QArith String Ascii List Bool Lia.
From stdpp Require Import gmap strings list.

Set Warnings "-register-all".
Local Open Scope string_scope.
Local Open Scope Z_scope.

(** ** Python values *)

Module Python.

(** A Python float: the values [json.loads] can produce. *)
Inductive pyfloat :=
| Fnan
| Finf (negative : bool)
| Ffin (q : Q).

(** The values a decoded JSON body is made of. *)
Inductive pyval :=
| PNone
| PBool (b : bool)
| PInt (z : Z)
| PFloat (f : pyfloat)
| PStr (s : string)
| PList (l : list pyval)
| PDict (d : gmap string pyval).

(** The exceptions (all subclasses of [Exception]) the code can meet. *)
Inductive exn :=
| TimeoutError
| ClientError
| ContentTypeError
| JSONDecodeError
| AttributeError
| TypeError
| ValueError.

Inductive result (A : Type) :=
| Ok (a : A)
| Raise (e : exn).
Arguments Ok {A} a.
Arguments Raise {A} e.

(** [bool(v)] *)
Definition truthy (v : pyval) : bool :=
  match v with
  | PNone => false
  | PBool b => b
  | PInt z => negb (z =? 0)
  | PFloat (Ffin q) => negb (Qeq_bool q 0)
  | PFloat _ => true
  | PStr s => negb (String.eqb s "")
  | PList l => match l with [] => false | _ => true end
  | PDict d => match map_to_list d with [] => false | _ => true end
  end.

(** [bool(s)] for a [str] *)
Definition str_truthy (s : string) : bool := negb (String.eqb s "").

(** [a or b] *)
Definition py_or (a b : pyval) : pyval := if truthy a then a else b.

(** [v is not None] *)
Definition is_not_None (v : pyval) : bool :=
  match v with PNone => false | _ => true end.

(** [v == n] for an [int] literal [n] *)
Definition py_eq_int (v : pyval) (n : Z) : bool :=
  match v with
  | PInt z => z =? n
  | PBool b => (if b then 1 else 0) =? n
  | PFloat (Ffin q) => Qeq_bool q (inject_Z n)
  | _ => false
  end.

(** [v == s] for a [str] literal [s] *)
Definition py_eq_str (v : pyval) (s : string) : bool :=
  match v with
  | PStr t => String.eqb t s
  | _ => false
  end.

(** [v >= n] for an [int] literal [n]: numbers compare, anything else
    raises [TypeError]. *)
Definition py_ge_int (v : pyval) (n : Z) : result bool :=
  match v with
  | PInt z => Ok (n <=? z)
  | PBool b => Ok (n <=? (if b then 1 else 0))
  | PFloat Fnan => Ok false
  | PFloat (Finf negative) => Ok (negb negative)
  | PFloat (Ffin q) => Ok (Qle_bool (inject_Z n) q)
  | _ => Raise TypeError
  end.

(** [data.get(key, default)] on a decoded body: only a [dict] has [get]. *)
Definition py_get (data : pyval) (key : string) (dflt : pyval) : result pyval :=
  match data with
  | PDict d => Ok (default dflt (d !! key))
  | _ => Raise AttributeError
  end.

(** [":" in s] *)
Fixpoint has_colon (s : string) : bool :=
  match s with
  | EmptyString => false
  | String c rest => Ascii.eqb c ":"%char || has_colon rest
  end.

End Python.
Export Python.

(** ** The network and the world an entity runs in *)

Module Runtime.

Inductive http_method := GET | POST.

(** [aiohttp.BasicAuth] *)
Record BasicAuth := mkBasicAuth { login : string; password : string }.

(** One call on a [ClientSession]: the keyword arguments the source passes. *)
Record request := mkRequest {
  req_method : http_method;
  req_url : string;
  req_params : option (gmap string string);
  req_json : option pyval;
  req_auth : option BasicAuth;
  req_timeout : Z
}.

(** What the [async with] block sees: [resp.status] and what
    [await resp.json()] gives (it raises when the body does not decode). *)
Record response := mkResponse {
  status : Z;
  json : result pyval
}.

(** A call either raises (timeout, refused connection, ...) or is answered. *)
Definition outcome := result response.

(** The device: what the next request gets, given the calls so far. *)
Definition device := list (request * outcome) -> request -> outcome.

Inductive log_level := DEBUG | INFO | ERROR.

Inductive log_arg :=
| LVal (v : pyval)
| LExn (e : exn).

(** A logging call: the format string is kept apart from its arguments,
    as [logging] formats lazily. *)
Record log_record := mkLog {
  level : log_level;
  msg : string;
  args : list log_arg
}.

(** The entity [self] of type [E], and what its coroutines have done:
    network calls (oldest first), log records, state pushes to the host
    platform, listeners registered on a coordinator. *)
Record world (E : Type) := mkWorld {
  self : E;
  calls : list (request * outcome);
  log : list log_record;
  ha_writes : nat;
  listeners : nat
}.
Arguments mkWorld {E}.
Arguments self {E}.
Arguments calls {E}.
Arguments log {E}.
Arguments ha_writes {E}.
Arguments listeners {E}.

(** Coroutines: state passing with exceptions; the state survives a raise. *)
Definition M (E A : Type) := world E -> result A * world E.

Definition ret {E A} (a : A) : M E A := fun w => (Ok a, w).

Definition raise {E A} (e : exn) : M E A := fun w => (Raise e, w).

Definition bind {E A B} (c : M E A) (k : A -> M E B) : M E B :=
  fun w =>
    match c w with
    | (Ok a, w') => k a w'
    | (Raise e, w') => (Raise e, w')
    end.

(** [try: body except Exception as err: handler] (and the bare [except:]) *)
Definition try_except {E A} (body : M E A) (handler : exn -> M E A) : M E A :=
  fun w =>
    match body w with
    | (Ok a, w') => (Ok a, w')
    | (Raise e, w') => handler e w'
    end.

(** An operator of [Python] used as a statement. *)
Definition lift {E A} (r : result A) : M E A := fun w => (r, w).

Definition get_self {E} : M E E := fun w => (Ok (self w), w).

Definition set_self {E} (f : E -> E) : M E unit :=
  fun w =>
    (Ok tt, mkWorld (f (self w)) (calls w) (log w) (ha_writes w) (listeners w)).

(** [_LOGGER.debug/info/error(msg, *args)] *)
Definition logger {E} (lvl : log_level) (m : string) (a : list log_arg)
  : M E unit :=
  fun w =>
    (Ok tt, mkWorld (self w) (calls w) (log w ++ [mkLog lvl m a])
                    (ha_writes w) (listeners w)).

(** [self.async_write_ha_state()] *)
Definition async_write_ha_state {E} : M E unit :=
  fun w =>
    (Ok tt, mkWorld (self w) (calls w) (log w) (S (ha_writes w)) (listeners w)).

(** [self.async_on_remove(coordinator.async_add_listener(callback))] *)
Definition async_add_listener {E} : M E unit :=
  fun w =>
    (Ok tt, mkWorld (self w) (calls w) (log w) (ha_writes w) (S (listeners w))).

(** [aiohttp.BasicAuth(login=..., password=...)]: the constructor rejects
    a login that contains a colon with [ValueError]. *)
Definition new_BasicAuth {E} (l p : string) : M E BasicAuth :=
  if has_colon l then raise ValueError else ret (mkBasicAuth l p).

(** [async with session.get(...)/post(...) as resp]: the call is recorded
    whether it is answered or raises. *)
Definition session_request {E} (net : device) (r : request) : M E response :=
  fun w =>
    let o := net (calls w) r in
    (o, mkWorld (self w) (calls w ++ [(r, o)]) (log w) (ha_writes w)
                (listeners w)).

Definition session_get {E} (net : device) (url : string)
    (params : option (gmap string string)) (auth : option BasicAuth)
    (timeout : Z) : M E response :=
  session_request net (mkRequest GET url params None auth timeout).

Definition session_post {E} (net : device) (url : string) (body : pyval)
    (auth : option BasicAuth) (timeout : Z) : M E response :=
  session_request net (mkRequest POST url None (Some body) auth timeout).

(** [await resp.json()] *)
Definition resp_json {E} (resp : response) : M E pyval := lift (json resp).

(** The calls made between two worlds of one run. *)
Definition new_calls {E} (w w' : world E) : list (request * outcome) :=
  drop (length (calls w)) (calls w').

(** The log records written between two worlds of one run. *)
Definition new_log {E} (w w' : world E) : list log_record :=
  drop (length (log w)) (log w').

(** What the host platform's registries hand to an entity. *)
Record DeviceEntry := mkDeviceEntry {
  id : string;
  name : string;
  identifiers : list (string * string)
}.

(** A configuration entry's [data] bag: string keys, string values. *)
Record ConfigEntry := mkConfigEntry { data : gmap string string }.

End Runtime.
Export Runtime.

Declare Scope py_scope.
Delimit Scope py_scope with py.
Notation "x <- c ;; k" := (bind c (fun x => k))
  (at level 100, c at next level, right associativity) : py_scope.
Notation "c ;; k" := (bind c (fun _ => k))
  (at level 100, right associativity) : py_scope.
Local Open Scope py_scope.

(** ** switch.py *)

Module ShellyAuthSwitch.

(** [coordinator.data]: an object with a callable [get] (key lookup over
    the last-known device data), or anything else. *)
Inductive feed_data :=
| Mapping (d : gmap string pyval)
| Opaque.

(** The push feed of the Shelly integration: its truth value and its
    [data] attribute, when it has one. *)
Record Coordinator := mkCoordinator {
  coordinator_bool : bool;
  coordinator_data : option feed_data
}.

(** The [device_info] dict built by [async_setup_entry]. *)
Record device_info := mkDeviceInfo {
  di_device : DeviceEntry;
  di_host : string;
  di_entry : ConfigEntry;
  di_coordinator : option Coordinator
}.

Record switch := mkSwitch {
  _device : DeviceEntry;
  _host : string;
  _entry : ConfigEntry;
  _credentials : gmap string string;
  _coordinator : option Coordinator;
  _attr_unique_id : string;
  _attr_is_on : pyval;
  _attr_available : bool
}.

(** [ShellyAuthSwitch.__init__] *)
Definition __init__ (info : device_info) (credentials : gmap string string)
  : switch :=
  mkSwitch (di_device info) (di_host info) (di_entry info) credentials
           (di_coordinator info)
           (id (di_device info) +:+ "_auth_control")
           PNone true.

(** [self._attr_is_on = v] *)
Definition set_attr_is_on (v : pyval) : M switch unit :=
  set_self (fun me =>
    mkSwitch (_device me) (_host me) (_entry me) (_credentials me)
             (_coordinator me) (_attr_unique_id me) v (_attr_available me)).

(** [bool(self._coordinator)] *)
Definition coordinator_truthy (c : option Coordinator) : bool :=
  match c with
  | Some c => coordinator_bool c
  | None => false
  end.

(** [hasattr(self._coordinator, "data")] *)
Definition hasattr_data (c : option Coordinator) : bool :=
  match c with
  | Some c => match coordinator_data c with Some _ => true | None => false end
  | None => false
  end.

(** [self._coordinator.data] *)
Definition getattr_data (c : option Coordinator) : M switch feed_data :=
  match c with
  | Some c =>
      match coordinator_data c with
      | Some d => ret d
      | None => raise AttributeError
      end
  | None => raise AttributeError
  end.

(** [data.get(key)] on the feed's mapping *)
Definition feed_get (d : gmap string pyval) (key : string) : pyval :=
  default PNone (d !! key).

Definition _update_from_coordinator : M switch unit :=
  try_except
    (me <- get_self ;;
     if negb (coordinator_truthy (_coordinator me))
        || negb (hasattr_data (_coordinator me))
     then ret tt
     else
       data <- getattr_data (_coordinator me) ;;
       match data with
       | Mapping d =>
           let auth_en := feed_get d "auth_en" in
           let auth := feed_get d "auth" in
           if is_not_None auth_en then
             set_attr_is_on auth_en ;;
             logger DEBUG "State from coordinator for '%s': auth_en=%s"
                    [LVal (PStr (name (_device me))); LVal auth_en]
           else if is_not_None auth then
             set_attr_is_on auth ;;
             logger DEBUG "State from coordinator for '%s': auth=%s"
                    [LVal (PStr (name (_device me))); LVal auth]
           else ret tt
       | Opaque => ret tt
       end)
    (fun err =>
       me <- get_self ;;
       logger DEBUG "Could not read coordinator data for '%s': %s"
              [LVal (PStr (name (_device me))); LExn err]).

Definition _handle_coordinator_update : M switch unit :=
  _update_from_coordinator ;;
  async_write_ha_state ;;
  me <- get_self ;;
  logger DEBUG "Coordinator update for '%s': auth=%s"
         [LVal (PStr (name (_device me))); LVal (_attr_is_on me)].

(** The [try:] suite of [_check_auth_status]. *)
Definition _check_auth_status_try (net : device) : M switch unit :=
  me <- get_self ;;
  let username := default "" (data (_entry me) !! "username") in
  let password := default "" (data (_entry me) !! "password") in
  auth <- (if str_truthy password && str_truthy username
           then a <- new_BasicAuth username password ;; ret (Some a)
           else ret None) ;;
  let url := "http://" +:+ _host me +:+ "/shelly" in
  resp <- session_get net url None auth 3 ;;
  if status resp =? 200 then
    data <- resp_json resp ;;
    gen <- lift (py_get data "gen" PNone) ;;
    auth_enabled <- (if py_eq_int gen 2 || py_eq_int gen 3
                     then lift (py_get data "auth_en" PNone)
                     else lift (py_get data "auth" PNone)) ;;
    if is_not_None auth_enabled then
      set_attr_is_on auth_enabled ;;
      logger DEBUG "Initial state for '%s': auth=%s"
             [LVal (PStr (name (_device me))); LVal auth_enabled]
    else
      a1 <- lift (py_get data "auth_en" PNone) ;;
      auth_enabled <- (if truthy a1 then ret a1
                       else lift (py_get data "auth" PNone)) ;;
      if is_not_None auth_enabled then set_attr_is_on auth_enabled
      else ret tt
  else if status resp =? 401 then
    set_attr_is_on (PBool true) ;;
    logger DEBUG "Initial state for '%s': auth=True (HTTP 401)"
           [LVal (PStr (name (_device me)))]
  else ret tt.

Definition _check_auth_status (net : device) : M switch unit :=
  try_except
    (_check_auth_status_try net)
    (fun err =>
       me <- get_self ;;
       logger DEBUG "Could not check auth status for '%s': %s"
              [LVal (PStr (name (_device me))); LExn err]).

Definition async_added_to_hass (net : device) : M switch unit :=
  me <- get_self ;;
  (if coordinator_truthy (_coordinator me) && hasattr_data (_coordinator me)
   then
     _update_from_coordinator ;;
     async_add_listener ;;
     logger DEBUG "Subscribed to coordinator updates for '%s'"
            [LVal (PStr (name (_device me)))]
   else _check_auth_status net) ;;
  async_write_ha_state.

(** The generation probe at the head of [_set_auth]: the inner
    [try: ... except: gen = 1]. *)
Definition _set_auth_detect (net : device) : M switch pyval :=
  try_except
    (me <- get_self ;;
     let info_url := "http://" +:+ _host me +:+ "/shelly" in
     resp <- session_get net info_url None None 3 ;;
     if status resp =? 200 then
       data <- resp_json resp ;;
       lift (py_get data "gen" (PInt 1))
     else ret (PInt 1))
    (fun _ => ret (PInt 1)).

(** The outer [try:] suite of [_set_auth]. *)
Definition _set_auth_try (net : device) (enable : bool)
    (username password : string) : M switch unit :=
  me <- get_self ;;
  gen <- _set_auth_detect net ;;
  is_rpc <- lift (py_ge_int gen 2) ;;
  if is_rpc then
    let url := "http://" +:+ _host me +:+ "/rpc/Sys.SetAuth" in
    pa <- (if enable
           then ret (PDict {[ "user" := PStr username;
                              "pass" := PStr password ]}, None)
           else a <- new_BasicAuth username password ;;
                ret (PDict {[ "user" := PNone ]}, Some a)) ;;
    resp <- session_post net url (fst pa) (snd pa) 10 ;;
    if status resp =? 200 then
      logger INFO "Auth %s on Gen%d device '%s' at %s"
             [LVal (PStr (if enable then "enabled" else "disabled"));
              LVal gen; LVal (PStr (name (_device me)));
              LVal (PStr (_host me))] ;;
      set_attr_is_on (PBool enable) ;;
      async_write_ha_state
    else
      logger ERROR "Failed to %s auth on Gen%d device '%s': HTTP %d"
             [LVal (PStr (if enable then "enable" else "disable"));
              LVal gen; LVal (PStr (name (_device me)));
              LVal (PInt (status resp))]
  else
    let url := "http://" +:+ _host me +:+ "/settings/login" in
    pa <- (if enable
           then ret ({[ "enabled" := "1"; "username" := username;
                        "password" := password ]}, None)
           else a <- new_BasicAuth username password ;;
                ret ({[ "enabled" := "0" ]}, Some a)) ;;
    resp <- session_get net url (Some (fst pa)) (snd pa) 10 ;;
    if status resp =? 200 then
      logger INFO "Auth %s on Gen1 device '%s' at %s"
             [LVal (PStr (if enable then "enabled" else "disabled"));
              LVal (PStr (name (_device me))); LVal (PStr (_host me))] ;;
      set_attr_is_on (PBool enable) ;;
      async_write_ha_state
    else
      logger ERROR "Failed to %s auth on Gen1 device '%s': HTTP %d"
             [LVal (PStr (if enable then "enable" else "disable"));
              LVal (PStr (name (_device me))); LVal (PInt (status resp))].

Definition _set_auth (net : device) (enable : bool) : M switch unit :=
  me <- get_self ;;
  let username := default "admin" (_credentials me !! "username") in
  let password := default "" (_credentials me !! "password") in
  if negb (str_truthy password) then
    logger ERROR "No password configured for device '%s'"
           [LVal (PStr (name (_device me)))]
  else
    try_except
      (_set_auth_try net enable username password)
      (fun err =>
         logger ERROR "Error setting auth on device '%s' at %s: %s"
                [LVal (PStr (name (_device me))); LVal (PStr (_host me));
                 LExn err]).

Definition async_turn_on (net : device) : M switch unit := _set_auth net true.

Definition async_turn_off (net : device) : M switch unit := _set_auth net false.

End ShellyAuthSwitch.

(** ** sensor.py *)

Module ShellyConnectivitySensor.

(** The [device_info] dict built by the sensor platform's
    [async_setup_entry]. *)
Record device_info := mkDeviceInfo {
  di_device : DeviceEntry;
  di_host : string;
  di_entry : ConfigEntry
}.

Record sensor := mkSensor {
  _device : DeviceEntry;
  _host : string;
  _entry : ConfigEntry;
  _attr_unique_id : string;
  _attr_native_value : pyval;
  _attr_available : bool
}.

(** [ShellyConnectivitySensor.__init__] *)
Definition __init__ (info : device_info) : sensor :=
  mkSensor (di_device info) (di_host info) (di_entry info)
           (id (di_device info) +:+ "_connectivity_config")
           PNone true.

(** [self._attr_native_value = v] *)
Definition set_attr_native_value (v : pyval) : M sensor unit :=
  set_self (fun me =>
    mkSensor (_device me) (_host me) (_entry me) (_attr_unique_id me) v
             (_attr_available me)).

Section Sensor.

(** [str(v)] of a value that is not a [str]; the f-strings of this module
    leave a [str] as it is. *)
Variable str_other : pyval -> string.

(** [f"{v}"] *)
Definition py_format (v : pyval) : string :=
  match v with
  | PStr s => s
  | _ => str_other v
  end.

Variable net : device.

Definition _detect_generation : M sensor pyval :=
  r <- try_except
         (me <- get_self ;;
          let url := "http://" +:+ _host me +:+ "/shelly" in
          resp <- session_get net url None None 3 ;;
          if status resp =? 200 then
            data <- resp_json resp ;;
            gen <- lift (py_get data "gen" (PInt 1)) ;;
            ret (Some gen)
          else ret None)
         (fun _ => ret None) ;;
  match r with
  | Some gen => ret gen
  | None => ret (PInt 1)
  end.

Definition _load_gen1_coiot (username password : string) : M sensor unit :=
  me <- get_self ;;
  let url := "http://" +:+ _host me +:+ "/settings" in
  auth <- (if str_truthy password && str_truthy username
           then a <- new_BasicAuth username password ;; ret (Some a)
           else ret None) ;;
  resp <- session_get net url None auth 5 ;;
  if status resp =? 200 then
    data <- resp_json resp ;;
    coiot <- lift (py_get data "coiot" (PDict ∅)) ;;
    peer <- lift (py_get coiot "peer" (PStr "")) ;;
    (if negb (truthy peer) || py_eq_str peer ""
     then set_attr_native_value (PStr "CoIoT: mcast (multicast)")
     else set_attr_native_value (PStr ("CoIoT: unicast " +:+ py_format peer))) ;;
    me' <- get_self ;;
    logger DEBUG "Gen1 CoIoT for '%s': %s"
           [LVal (PStr (name (_device me))); LVal (_attr_native_value me')]
  else if status resp =? 401 then
    set_attr_native_value (PStr "CoIoT: Unknown (auth required)")
  else ret tt.

Definition _load_gen2_websocket (username password : string) : M sensor unit :=
  me <- get_self ;;
  let url := "http://" +:+ _host me +:+ "/rpc/Sys.GetConfig" in
  auth <- (if str_truthy password && str_truthy username
           then a <- new_BasicAuth username password ;; ret (Some a)
           else ret None) ;;
  try_except
    (resp <- session_post net url (PDict ∅) auth 5 ;;
     if status resp =? 200 then
       data <- resp_json resp ;;
       ws_config <- lift (py_get data "ws" (PDict ∅)) ;;
       ws_server <- lift (py_get ws_config "server" (PStr "")) ;;
       if truthy ws_server then
         set_attr_native_value (PStr ("WebSocket: " +:+ py_format ws_server)) ;;
         logger DEBUG "Gen2/3 WebSocket for '%s': %s"
                [LVal (PStr (name (_device me))); LVal ws_server]
       else
         set_attr_native_value (PStr "WebSocket: Not configured (uses mDNS)") ;;
         logger DEBUG "Gen2/3 WebSocket for '%s': Not explicitly configured"
                [LVal (PStr (name (_device me)))]
     else if status resp =? 401 then
       set_attr_native_value (PStr "WebSocket: Unknown (auth required)")
     else ret tt)
    (fun err =>
       logger DEBUG "Error getting Gen2/3 WebSocket for '%s': %s"
              [LVal (PStr (name (_device me))); LExn err] ;;
       set_attr_native_value (PStr "WebSocket: Auto-discovery (mDNS)")).

(** The [try:] suite of [_load_connectivity_config]. *)
Definition _load_connectivity_config_try (username password : string)
  : M sensor unit :=
  gen <- _detect_generation ;;
  is_rpc <- lift (py_ge_int gen 2) ;;
  if is_rpc then _load_gen2_websocket username password
  else _load_gen1_coiot username password.

Definition _load_connectivity_config : M sensor unit :=
  me <- get_self ;;
  let username := default "" (data (_entry me) !! "username") in
  let password := default "" (data (_entry me) !! "password") in
  try_except
    (_load_connectivity_config_try username password)
    (fun err =>
       logger DEBUG "Could not load connectivity config for '%s': %s"
              [LVal (PStr (name (_device me))); LExn err] ;;
       set_attr_native_value (PStr "Unknown")).

Definition async_added_to_hass : M sensor unit :=
  _load_connectivity_config ;;
  async_write_ha_state.

End Sensor.

End ShellyConnectivitySensor.

(** ** The wire protocol

    The requests of the two device dialects, written out once so that the
    theorems can say which request a coroutine sent. *)

Module Wire.

(** GET [/shelly] without credentials: the generation probe of [_set_auth]
    and of [_detect_generation]. *)
Definition probe_request (host : string) : request :=
  mkRequest GET ("http://" +:+ host +:+ "/shelly") None None None 3.

(** The generation value both probes make of what the probe gets. *)
Definition probe_gen (o : outcome) : pyval :=
  match o with
  | Ok resp =>
      if status resp =? 200 then
        match json resp with
        | Ok (PDict d) => default (PInt 1) (d !! "gen")
        | _ => PInt 1
        end
      else PInt 1
  | Raise _ => PInt 1
  end.

(** Basic-auth from reader credentials: only when both are set. *)
Definition reader_auth (username password : string) : option BasicAuth :=
  if str_truthy password && str_truthy username
  then Some (mkBasicAuth username password)
  else None.

(** GET [/shelly] with the reader's credentials: the poll of
    [_check_auth_status]. *)
Definition status_request (host : string) (auth : option BasicAuth) : request :=
  mkRequest GET ("http://" +:+ host +:+ "/shelly") None None auth 3.

(** GET [/settings]. *)
Definition settings_request (host : string) (auth : option BasicAuth) : request :=
  mkRequest GET ("http://" +:+ host +:+ "/settings") None None auth 5.

(** POST [/rpc/Sys.GetConfig] with an empty JSON body. *)
Definition get_config_request (host : string) (auth : option BasicAuth) : request :=
  mkRequest POST ("http://" +:+ host +:+ "/rpc/Sys.GetConfig") None
            (Some (PDict ∅)) auth 5.

(** POST [/rpc/Sys.SetAuth]: credentials in the body when enabling, a null
    user in the body and basic-auth on the request when disabling. *)
Definition rpc_set_auth_request (host : string) (enable : bool)
    (username password : string) : request :=
  if enable then
    mkRequest POST ("http://" +:+ host +:+ "/rpc/Sys.SetAuth") None
              (Some (PDict {[ "user" := PStr username; "pass" := PStr password ]}))
              None 10
  else
    mkRequest POST ("http://" +:+ host +:+ "/rpc/Sys.SetAuth") None
              (Some (PDict {[ "user" := PNone ]}))
              (Some (mkBasicAuth username password)) 10.

(** GET [/settings/login]: credentials in the query when enabling,
    basic-auth on the request when disabling. *)
Definition login_request (host : string) (enable : bool)
    (username password : string) : request :=
  if enable then
    mkRequest GET ("http://" +:+ host +:+ "/settings/login")
              (Some {[ "enabled" := "1"; "username" := username;
                       "password" := password ]})
              None None 10
  else
    mkRequest GET ("http://" +:+ host +:+ "/settings/login")
              (Some {[ "enabled" := "0" ]})
              None (Some (mkBasicAuth username password)) 10.

(** The mutation call of [_set_auth] for a device of either dialect. *)
Definition mutation_request (rpc : bool) (host : string) (enable : bool)
    (username password : string) : request :=
  if rpc then rpc_set_auth_request host enable username password
  else login_request host enable username password.

(** Whether a request names a user, and which: in basic-auth, in a JSON
    body's [user] field, or in a [username] query parameter. *)
Definition names_user (r : request) (u : string) : Prop :=
  (exists a, req_auth r = Some a /\ login a = u)
  \/ (exists d, req_json r = Some (PDict d) /\ d !! "user" = Some (PStr u))
  \/ (exists p, req_params r = Some p /\ p !! "username" = Some u).

(** A run between two worlds has called [url]. *)
Definition polled {E} (url : string) (w w' : world E) : Prop :=
  exists r o, In (r, o) (new_calls w w') /\ req_url r = url.

End Wire.
Export Wire.

(** ** Concrete devices and entities *)

Module Scenarios.

(** A fresh world around a newly constructed entity. *)
Definition start {E} (e : E) : world E := mkWorld e [] [] 0 0.

(** A device that answers by URL, and refuses the connection elsewhere. *)
Fixpoint serve (routes : list (string * outcome)) (history : list (request * outcome))
    (r : request) : outcome :=
  match routes with
  | [] => Raise ClientError
  | (url, o) :: rest =>
      if String.eqb (req_url r) url then o else serve rest history r
  end.

(** A device that never answers in time. *)
Definition unreachable : device := fun _ _ => Raise TimeoutError.

Definition answer (code : Z) (body : list (string * pyval)) : outcome :=
  Ok (mkResponse code (Ok (PDict (list_to_map body)))).

Definition relay : DeviceEntry :=
  mkDeviceEntry "a1b2c3" "Hallway relay" [("shelly", "a1b2c3")].

Definition relay_entry : ConfigEntry :=
  mkConfigEntry (list_to_map [("host", "192.168.1.50")]).

(** The writer credentials of the installation. *)
Definition writer : gmap string string :=
  list_to_map [("username", "admin"); ("password", "s3cret")].

(** Writer credentials with a password and no username. *)
Definition writer_no_username : gmap string string :=
  list_to_map [("password", "s3cret")].

(** Writer credentials with an empty password. *)
Definition writer_no_password : gmap string string :=
  list_to_map [("username", "admin"); ("password", "")].

(** A push feed that holds both flags: the explicit one off, the legacy one on. *)
Definition feed_both : ShellyAuthSwitch.Coordinator :=
  ShellyAuthSwitch.mkCoordinator true
    (Some (ShellyAuthSwitch.Mapping
             (list_to_map [("auth_en", PBool false); ("auth", PBool true)]))).

(** A push feed whose data holds neither flag. *)
Definition feed_empty : ShellyAuthSwitch.Coordinator :=
  ShellyAuthSwitch.mkCoordinator true
    (Some (ShellyAuthSwitch.Mapping (list_to_map [("uptime", PInt 86400)]))).

Definition switch_of (feed : option ShellyAuthSwitch.Coordinator)
    (credentials : gmap string string) : world ShellyAuthSwitch.switch :=
  start (ShellyAuthSwitch.__init__
           (ShellyAuthSwitch.mkDeviceInfo relay "192.168.1.50" relay_entry feed)
           credentials).

Definition sensor_of : world ShellyConnectivitySensor.sensor :=
  start (ShellyConnectivitySensor.__init__
           (ShellyConnectivitySensor.mkDeviceInfo relay "192.168.1.50" relay_entry)).

(** Scenario A: the self-description says generation 1; the settings say
    authentication on and CoIoT multicast. *)
Definition scenario_a : device :=
  serve [("http://192.168.1.50/shelly", answer 200 [("gen", PInt 1)]);
         ("http://192.168.1.50/settings",
          answer 200 [("auth", PBool true);
                      ("coiot", PDict (list_to_map [("peer", PStr "")]))])].

(** A Gen1 device as shipped: no [gen] in the self-description, which
    carries the [auth] flag. *)
Definition gen1_device : device :=
  serve [("http://192.168.1.50/shelly",
          answer 200 [("type", PStr "SHSW-1"); ("auth", PBool false)]);
         ("http://192.168.1.50/settings",
          answer 200 [("coiot", PDict (list_to_map [("peer", PStr "")]))]);
         ("http://192.168.1.50/settings/login", answer 200 [])].

(** A Gen1 device whose settings endpoint fails with HTTP 500. *)
Definition gen1_settings_500 : device :=
  serve [("http://192.168.1.50/shelly", answer 200 [("type", PStr "SHSW-1"); ("auth", PBool false)]);
         ("http://192.168.1.50/settings", answer 500 [])].

(** A Gen1 device that sends CoIoT to one peer. *)
Definition gen1_unicast : device :=
  serve [("http://192.168.1.50/shelly", answer 200 [("type", PStr "SHSW-1"); ("auth", PBool false)]);
         ("http://192.168.1.50/settings",
          answer 200 [("coiot", PDict (list_to_map [("peer", PStr "192.168.1.2:5683")]))]);
         ("http://192.168.1.50/settings/login", answer 200 [])].

(** Scenario B: a Gen3 device with an outbound WebSocket. *)
Definition gen3_device : device :=
  serve [("http://192.168.1.50/shelly", answer 200 [("gen", PInt 3); ("auth_en", PBool false)]);
         ("http://192.168.1.50/rpc/Sys.GetConfig",
          answer 200 [("ws", PDict (list_to_map [("server", PStr "wss://example/ws")]))]);
         ("http://192.168.1.50/rpc/Sys.SetAuth", answer 200 [])].

(** Scenario D: a Gen2 device that refuses [Sys.SetAuth] with HTTP 403. *)
Definition gen2_forbidden : device :=
  serve [("http://192.168.1.50/shelly", answer 200 [("gen", PInt 2); ("auth_en", PBool true)]);
         ("http://192.168.1.50/rpc/Sys.SetAuth", answer 403 [])].

(** A device that gates every endpoint behind authentication. *)
Definition locked_device : device :=
  serve [("http://192.168.1.50/shelly", answer 401 [])].

(** A host whose self-description names the generation as a string. *)
Definition gen_as_string : device :=
  serve [("http://192.168.1.50/shelly", answer 200 [("gen", PStr "2")]);
         ("http://192.168.1.50/settings", answer 200 []);
         ("http://192.168.1.50/settings/login", answer 200 []);
         ("http://192.168.1.50/rpc/Sys.GetConfig", answer 200 []);
         ("http://192.168.1.50/rpc/Sys.SetAuth", answer 200 [])].

(** A switch whose state is already on. *)
Definition enabled_switch : world ShellyAuthSwitch.switch :=
  start (ShellyAuthSwitch.mkSwitch relay "192.168.1.50" relay_entry writer None
           "a1b2c3_auth_control" (PBool true) true).

(** [str()] of a value that is not a [str], left uninterpreted. *)
Definition no_str : pyval -> string := fun _ => "".

End Scenarios.

(** ** The host platform, as the setup functions see it *)

Module Platform.

(** A record of the device registry: what the entities read of it, and
    the ids of the config entries the device belongs to, in the order the
    setup functions iterate over them. *)
Record RegisteredDevice := mkRegisteredDevice {
  reg_device : DeviceEntry;
  config_entries : list string
}.

(** A config entry as [hass.config_entries.async_get_entry] returns it. *)
Record RegisteredEntry := mkRegisteredEntry {
  domain : string;
  config : ConfigEntry
}.

(** [hass]: the device registry ([device_registry.devices.values()]), the
    config entries by id, and the two keys of [hass.data] the code reads:
    ["shelly"], per entry id what [.get("coordinator")] gives, and
    ["shelly_services"], per entry id the stored entry data.  [None]
    stands for a key that is not in [hass.data]. *)
Record HomeAssistant := mkHomeAssistant {
  devices : list RegisteredDevice;
  entries : gmap string RegisteredEntry;
  shelly_data : option (gmap string (option ShellyAuthSwitch.Coordinator));
  services_data : option (gmap string (gmap string string))
}.

(** [device.name or "Unknown"] *)
Definition display_name (d : DeviceEntry) : string :=
  if str_truthy (name d) then name d else "Unknown".

(** [bool(host)] for what [config_entry.data.get("host")] gives *)
Definition host_truthy (host : option string) : bool :=
  match host with
  | Some h => str_truthy h
  | None => false
  end.

(** [bool(device.identifiers)] *)
Definition has_identifiers (d : DeviceEntry) : bool :=
  match identifiers d with
  | [] => false
  | _ => true
  end.

(** The config entry at which the inner loop of both setup functions
    stops: the first one of the device that is known and of domain
    ["shelly"]. *)
Fixpoint first_shelly_entry (hass : HomeAssistant) (entry_ids : list string)
  : option (string * RegisteredEntry) :=
  match entry_ids with
  | [] => None
  | entry_id :: rest =>
      match entries hass !! entry_id with
      | Some config_entry =>
          if String.eqb (domain config_entry) "shelly"
          then Some (entry_id, config_entry)
          else first_shelly_entry hass rest
      | None => first_shelly_entry hass rest
      end
  end.

(** The host a registry device stands for: it has identifiers, and the
    first of its Shelly config entries names a non-empty host. *)
Definition shelly_host (hass : HomeAssistant) (dev : RegisteredDevice)
  : option string :=
  if has_identifiers (reg_device dev) then
    match first_shelly_entry hass (config_entries dev) with
    | Some (_, config_entry) =>
        match data (config config_entry) !! "host" with
        | Some h => if str_truthy h then Some h else None
        | None => None
        end
    | None => None
    end
  else None.

End Platform.
Export Platform.

(** ** switch.py: [async_setup_entry] *)

Module SwitchPlatform.
Import ShellyAuthSwitch.

(** The local variables of the device loop: the [shelly_devices] dict
    (keyed by host, in insertion order), [skipped_count], and the log. *)
Record scan := mkScan {
  shelly_devices : list (string * device_info);
  skipped_count : Z;
  scan_log : list log_record
}.

(** [hass.data["shelly"][entry_id].get("coordinator")], guarded by
    ["shelly" in hass.data and entry_id in hass.data["shelly"]] *)
Definition coordinator_of (hass : HomeAssistant) (entry_id : string)
  : option Coordinator :=
  match shelly_data hass with
  | Some per_entry =>
      match per_entry !! entry_id with
      | Some coordinator => coordinator
      | None => None
      end
  | None => None
  end.

(** [for entry_id in device.config_entries: ...], with its [break]s. *)
Fixpoint scan_config_entries (hass : HomeAssistant) (dev : RegisteredDevice)
    (entry_ids : list string) (s : scan) : scan :=
  match entry_ids with
  | [] => s
  | entry_id :: rest =>
      match entries hass !! entry_id with
      | Some config_entry =>
          if String.eqb (domain config_entry) "shelly" then
            let host := data (config config_entry) !! "host" in
            if negb (host_truthy host) then
              mkScan (shelly_devices s) (skipped_count s)
                     (scan_log s ++
                      [mkLog DEBUG "Skipping Shelly device '%s' (no host in config)"
                             [LVal (PStr (display_name (reg_device dev)))]])
            else
              let h := default "" host in
              if bool_decide (h ∈ (shelly_devices s).*1) then s
              else
                mkScan (shelly_devices s ++
                        [(h, mkDeviceInfo (reg_device dev) h (config config_entry)
                                          (coordinator_of hass entry_id))])
                       (skipped_count s) (scan_log s)
          else scan_config_entries hass dev rest s
      | None => scan_config_entries hass dev rest s
      end
  end.

(** The body of [for device in device_registry.devices.values()]. *)
Definition scan_device (hass : HomeAssistant) (s : scan)
    (dev : RegisteredDevice) : scan :=
  if negb (has_identifiers (reg_device dev)) then
    mkScan (shelly_devices s) (skipped_count s + 1)
           (scan_log s ++
            [mkLog DEBUG "Skipping device '%s' (no identifiers)"
                   [LVal (PStr (display_name (reg_device dev)))]])
  else scan_config_entries hass dev (config_entries dev) s.

(** What the platform is left with: the entities handed to
    [async_add_entities], and the log. *)
Record setup := mkSetup {
  added : list switch;
  setup_log : list log_record
}.

(** [async_setup_entry(hass, entry, async_add_entities)].  [None] stands
    for the [KeyError] of [hass.data[DOMAIN][entry.entry_id]]. *)
Definition async_setup_entry (hass : HomeAssistant) (entry_id : string)
  : option setup :=
  match services_data hass with
  | Some per_entry =>
      match per_entry !! entry_id with
      | Some credentials =>
          let s := foldl (scan_device hass) (mkScan [] 0 []) (devices hass) in
          let entities :=
            map (fun info => __init__ info credentials) (shelly_devices s).*2 in
          Some (mkSetup entities
                  (scan_log s ++
                   [mkLog INFO
                      "Found %d unique Shelly devices (skipped %d without identifiers)"
                      [LVal (PInt (Z.of_nat (length (shelly_devices s))));
                       LVal (PInt (skipped_count s))]]))
      | None => None
      end
  | None => None
  end.

(** What the device loop of switch.py keeps true of its dict, over the
    part [pre] of the registry it has seen: keys are distinct; each key is
    the host of its value; the keys are the hosts the devices of [pre]
    stand for; and each value comes from the first device of [pre] that
    stands for its key. *)
Definition scanned (hass : HomeAssistant) (pre : list RegisteredDevice)
    (l : list (string * device_info)) : Prop :=
  NoDup l.*1
  /\ (forall h, h ∈ l.*1 <->
        exists dev, dev ∈ pre /\ shelly_host hass dev = Some h)
  /\ (forall h info, (h, info) ∈ l ->
        exists p1 dev p2 entry_id config_entry,
          pre = (p1 ++ dev :: p2)%list
          /\ shelly_host hass dev = Some h
          /\ (forall d, d ∈ p1 -> shelly_host hass d <> Some h)
          /\ first_shelly_entry hass (config_entries dev)
             = Some (entry_id, config_entry)
          /\ info = mkDeviceInfo (reg_device dev) h
                      (config config_entry)
                      (coordinator_of hass entry_id)).

End SwitchPlatform.

(** ** sensor.py: [ShellyIPSensor] and [async_setup_entry] *)

Module ShellyIPSensor.

Record ip_sensor := mkIPSensor {
  _device : DeviceEntry;
  _host : string;
  _entry : ConfigEntry;
  _attr_unique_id : string;
  _attr_native_value : pyval;
  _attr_available : bool
}.

(** [ShellyIPSensor.__init__] *)
Definition __init__ (info : ShellyConnectivitySensor.device_info) : ip_sensor :=
  mkIPSensor (ShellyConnectivitySensor.di_device info)
             (ShellyConnectivitySensor.di_host info)
             (ShellyConnectivitySensor.di_entry info)
             (id (ShellyConnectivitySensor.di_device info) +:+ "_ip_address")
             (PStr (ShellyConnectivitySensor.di_host info)) true.

End ShellyIPSensor.

Module SensorPlatform.
Import ShellyConnectivitySensor.

(** The two kinds of entity the platform adds. *)
Inductive sensor_entity :=
| IPSensor (s : ShellyIPSensor.ip_sensor)
| ConnectivitySensor (s : sensor).

(** [for entry_id in device.config_entries: ...], with its [break]. *)
Fixpoint scan_config_entries (hass : HomeAssistant) (dev : RegisteredDevice)
    (entry_ids : list string) (shelly_devices : list (string * device_info))
  : list (string * device_info) :=
  match entry_ids with
  | [] => shelly_devices
  | entry_id :: rest =>
      match entries hass !! entry_id with
      | Some config_entry =>
          if String.eqb (domain config_entry) "shelly" then
            let host := data (config config_entry) !! "host" in
            if host_truthy host
               && negb (bool_decide (default "" host ∈ shelly_devices.*1))
            then shelly_devices ++
                 [(default "" host,
                   mkDeviceInfo (reg_device dev) (default "" host)
                                (config config_entry))]
            else shelly_devices
          else scan_config_entries hass dev rest shelly_devices
      | None => scan_config_entries hass dev rest shelly_devices
      end
  end.

(** The body of [for device in device_registry.devices.values()]. *)
Definition scan_device (hass : HomeAssistant)
    (shelly_devices : list (string * device_info)) (dev : RegisteredDevice)
  : list (string * device_info) :=
  if negb (has_identifiers (reg_device dev)) then shelly_devices
  else scan_config_entries hass dev (config_entries dev) shelly_devices.

(** [entities.append(ShellyIPSensor(...)); entities.append(ShellyConnectivitySensor(...))] *)
Definition sensors_of (info : device_info) : list sensor_entity :=
  [IPSensor (ShellyIPSensor.__init__ info); ConnectivitySensor (__init__ info)].

Record setup := mkSetup {
  added : list sensor_entity;
  setup_log : list log_record
}.

(** [async_setup_entry(hass, entry, async_add_entities)] *)
Definition async_setup_entry (hass : HomeAssistant) : setup :=
  let shelly_devices := foldl (scan_device hass) [] (devices hass) in
  let entities := flat_map sensors_of shelly_devices.*2 in
  mkSetup entities
    [mkLog INFO "Added %d sensors (IP + Connectivity)"
           [LVal (PInt (Z.of_nat (length entities)))]].

End SensorPlatform.

(** ** __init__.py *)

Module Integration.

(** What a set-up leaves: [hass] with the stored entry data, the entities
    of the two platforms, the log, and the value returned. *)
Record setup := mkSetup {
  hass_after : HomeAssistant;
  switches : list ShellyAuthSwitch.switch;
  sensors : list SensorPlatform.sensor_entity;
  setup_log : list log_record;
  returned : bool
}.

(** [hass.data.setdefault(DOMAIN, {})] and
    [hass.data[DOMAIN][entry.entry_id] = entry.data] *)
Definition store_entry (hass : HomeAssistant) (entry_id : string)
    (entry : ConfigEntry) : HomeAssistant :=
  mkHomeAssistant (devices hass) (entries hass) (shelly_data hass)
    (Some (<[entry_id := data entry]> (default ∅ (services_data hass)))).

(** [async_setup_entry(hass, entry)].  Forwarding the entry to
    [PLATFORMS] makes the platform call [async_setup_entry] of switch.py
    and of sensor.py; [None] stands for a [KeyError] out of the former. *)
Definition async_setup_entry (hass : HomeAssistant) (entry_id : string)
    (entry : ConfigEntry) : option setup :=
  let hass' := store_entry hass entry_id entry in
  match SwitchPlatform.async_setup_entry hass' entry_id with
  | Some switch_setup =>
      let sensor_setup := SensorPlatform.async_setup_entry hass' in
      Some (mkSetup hass'
              (SwitchPlatform.added switch_setup)
              (SensorPlatform.added sensor_setup)
              ([mkLog INFO "Setting up Shelly Services v0.0.1" []]
               ++ SwitchPlatform.setup_log switch_setup
               ++ SensorPlatform.setup_log sensor_setup)
              true)
  | None => None
  end.

(** [async_unload_entry(hass, entry)], given what
    [async_unload_platforms] answered.  [None] stands for the [KeyError]
    of [hass.data[DOMAIN].pop(entry.entry_id)]. *)
Definition async_unload_entry (hass : HomeAssistant) (entry_id : string)
    (unload_ok : bool) : option (HomeAssistant * bool) :=
  if unload_ok then
    match services_data hass with
    | Some per_entry =>
        match per_entry !! entry_id with
        | Some _ =>
            Some (mkHomeAssistant (devices hass) (entries hass)
                    (shelly_data hass) (Some (delete entry_id per_entry)),
                  unload_ok)
        | None => None
        end
    | None => None
    end
  else Some (hass, unload_ok).

End Integration.

(** ** config_flow.py *)

Module ConfigFlow.

Definition DEFAULT_USERNAME : string := "admin".

(** [vol.Required(key, default=...): str]; [None] for no default. *)
Record SchemaField := mkField {
  key : string;
  field_default : option string
}.

Inductive FlowResult :=
| Abort (reason : string)
| ShowForm (step_id : string) (data_schema : list SchemaField)
| CreateEntry (title : string) (entry_data : gmap string string).

(** [ShellyServicesConfigFlow.async_step_user], given
    [self._async_current_entries()]. *)
Definition async_step_user (current_entries : list ConfigEntry)
    (user_input : option (gmap string string)) : FlowResult :=
  match current_entries with
  | _ :: _ => Abort "single_instance_allowed"
  | [] =>
      match user_input with
      | None =>
          ShowForm "user" [mkField "username" (Some DEFAULT_USERNAME);
                           mkField "password" None]
      | Some input => CreateEntry "Shelly Services" input
      end
  end.

(** [ShellyServicesOptionsFlow.async_step_init]: the config entry as
    [async_update_entry] leaves it, and the flow's result. *)
Definition async_step_init (config_entry : ConfigEntry)
    (user_input : option (gmap string string)) : ConfigEntry * FlowResult :=
  match user_input with
  | Some input =>
      (mkConfigEntry (input ∪ data config_entry), CreateEntry "" ∅)
  | None =>
      (config_entry,
       ShowForm "init"
         [mkField "username"
                  (Some (default "admin" (data config_entry !! "username")));
          mkField "password"
                  (Some (default "" (data config_entry !! "password")))])
  end.

(** Submitting a form as it is shown: every field at its default. *)
Definition submit_defaults (data_schema : list SchemaField)
  : gmap string string :=
  list_to_map (omap (fun f => match field_default f with
                              | Some v => Some (key f, v)
                              | None => None
                              end) data_schema).

End ConfigFlow.

(** ** A concrete installation *)

Module Installation.
Import Scenarios.

Definition kitchen : DeviceEntry :=
  mkDeviceEntry "d4e5f6" "Kitchen plug" [("shelly", "d4e5f6")].

(** A registry record without identifiers. *)
Definition ghost : DeviceEntry := mkDeviceEntry "000000" "" [].

Definition kitchen_entry : ConfigEntry :=
  mkConfigEntry (list_to_map [("host", "192.168.1.51")]).

(** A Shelly entry without a host. *)
Definition hostless_entry : ConfigEntry := mkConfigEntry ∅.

Definition hass0 : HomeAssistant :=
  mkHomeAssistant
    [mkRegisteredDevice ghost ["e1"];
     mkRegisteredDevice relay ["hue"; "e1"];
     mkRegisteredDevice kitchen ["e3"; "e2"];
     mkRegisteredDevice kitchen ["e2"];
     mkRegisteredDevice kitchen ["e1"]]
    (list_to_map [("e1", mkRegisteredEntry "shelly" relay_entry);
                  ("e2", mkRegisteredEntry "shelly" kitchen_entry);
                  ("e3", mkRegisteredEntry "shelly" hostless_entry);
                  ("hue", mkRegisteredEntry "hue" kitchen_entry)])
    (Some (list_to_map [("e1", Some feed_both)]))
    None.

(** The installation once the integration's own entry ["svc"] is stored. *)
Definition hass1 : HomeAssistant :=
  Integration.store_entry hass0 "svc" (mkConfigEntry writer).

(** A Gen2 device of old firmware: no [auth_en], the legacy [auth] on. *)
Definition gen2_legacy : device :=
  serve [("http://192.168.1.50/shelly",
          answer 200 [("gen", PInt 2); ("auth", PBool true)])].

(** A self-description without [gen] and [auth], with [auth_en] off. *)
Definition explicit_off : device :=
  serve [("http://192.168.1.50/shelly", answer 200 [("auth_en", PBool false)])].

(** A device whose self-description fails with HTTP 500. *)
Definition failing_device : device :=
  serve [("http://192.168.1.50/shelly", answer 500 [])].

(** A Gen1 device whose settings do not decode. *)
Definition gen1_garbled : device :=
  serve [("http://192.168.1.50/shelly", answer 200 [("type", PStr "SHSW-1")]);
         ("http://192.168.1.50/settings",
          Ok (mkResponse 200 (Raise JSONDecodeError)))].

(** A push feed with the legacy flag alone. *)
Definition feed_legacy : ShellyAuthSwitch.Coordinator :=
  ShellyAuthSwitch.mkCoordinator true
    (Some (ShellyAuthSwitch.Mapping (list_to_map [("auth", PBool true)]))).

(** A coordinator whose [data] has no [get]. *)
Definition feed_opaque : ShellyAuthSwitch.Coordinator :=
  ShellyAuthSwitch.mkCoordinator true (Some ShellyAuthSwitch.Opaque).

(** Writer credentials whose user name holds a colon. *)
Definition writer_colon : gmap string string :=
  list_to_map [("username", "ad:min"); ("password", "s3cret")].

(** A switch, state on, of an installation with those credentials. *)
Definition colon_switch : world ShellyAuthSwitch.switch :=
  start (ShellyAuthSwitch.mkSwitch relay "192.168.1.50" relay_entry
           writer_colon None "a1b2c3_auth_control" (PBool true) true).

(** A Shelly entry whose reader user name holds a colon. *)
Definition colon_entry : ConfigEntry :=
  mkConfigEntry (list_to_map [("host", "192.168.1.50");
                              ("username", "us:er"); ("password", "pw")]).

(** A switch as constructed for that entry, without a feed. *)
Definition colon_reader : world ShellyAuthSwitch.switch :=
  start (ShellyAuthSwitch.__init__
           (ShellyAuthSwitch.mkDeviceInfo relay "192.168.1.50" colon_entry None)
           writer).

(** A Gen1 device whose self-description is refused while its login
    endpoint answers. *)
Definition probe_down : device :=
  serve [("http://192.168.1.50/settings/login", answer 200 [])].

End Installation.

(** ** Reasoning about runs *)

Ltac monad_unfold :=
  unfold bind, try_except, ret, raise, lift, get_self, set_self, logger,
    async_write_ha_state, async_add_listener, new_BasicAuth, session_get,
    session_post, session_request, resp_json in *.

Lemma drop_own {A} (l l1 : list A) : drop (length l) (l ++ l1)%list = l1.
Proof. apply drop_app_length. Qed.

Lemma drop_own2 {A} (l l1 l2 : list A) :
  drop (length l) ((l ++ l1) ++ l2)%list = (l1 ++ l2)%list.
Proof. rewrite <- app_assoc. apply drop_app_length. Qed.

Lemma drop_own0 {A} (l : list A) : drop (length l) l = [].
Proof. apply drop_all. Qed.

(** Bring [new_calls] and [new_log] of a finished run to a literal list. *)
Ltac norm_new :=
  unfold new_calls, new_log in *;
  cbn [self calls log ha_writes listeners fst snd] in *;
  rewrite ?drop_own2, ?drop_own, ?drop_own0 in *;
  cbn [app] in *.

#[local] Arguments py_ge_int : simpl never.
#[local] Arguments py_get : simpl never.
#[local] Arguments py_eq_int : simpl never.
#[local] Arguments truthy : simpl never.
#[local] Arguments has_colon : simpl never.
#[local] Arguments str_truthy : simpl never.
#[local] Arguments probe_gen : simpl never.
#[local] Arguments String.append : simpl never.

(** One branching point of a run: split on it and simplify. *)
Ltac path_step :=
  match goal with
  | |- context [match py_ge_int ?g ?n with _ => _ end] =>
      destruct (py_ge_int g n) as [[|]|?] eqn:?
  | |- context [match py_get ?v ?k ?a with _ => _ end] =>
      destruct (py_get v k a) as [?|?] eqn:?
  | |- context [match json ?r with _ => _ end] =>
      destruct (json r) as [?|?] eqn:?
  | |- context [match ?net ?c ?r with _ => _ end] =>
      let T := type of (net c r) in unify T outcome;
      destruct (net c r) as [?|?] eqn:?
  | |- context [if status ?r =? ?n then _ else _] =>
      destruct (Z.eqb_spec (status r) n)
  | |- context [if has_colon ?s then _ else _] =>
      destruct (has_colon s) eqn:?
  | |- context [if negb (str_truthy ?s) then _ else _] =>
      destruct (str_truthy s) eqn:?
  | |- context [if str_truthy ?s && str_truthy ?t then _ else _] =>
      destruct (str_truthy s) eqn:?; destruct (str_truthy t) eqn:?
  | |- context [if py_eq_int ?g 2 || py_eq_int ?g 3 then _ else _] =>
      destruct (py_eq_int g 2 || py_eq_int g 3) eqn:?
  | |- context [if is_not_None ?v then _ else _] =>
      destruct (is_not_None v) eqn:?
  | |- context [if truthy ?v then _ else _] =>
      destruct (truthy v) eqn:?
  | |- context [if negb (truthy ?v) || py_eq_str ?v ?s then _ else _] =>
      destruct (negb (truthy v) || py_eq_str v s) eqn:?
  | |- context [if ?b then _ else _] => is_var b; destruct b
  end; cbn.

Lemma is_not_None_spec v : is_not_None v = false <-> v = PNone.
Proof. destruct v; cbn; split; congruence. Qed.

Lemma py_get_dict d key dflt : py_get (PDict d) key dflt = Ok (default dflt (d !! key)).
Proof. reflexivity. Qed.

Lemma py_get_Ok data key dflt v :
  py_get data key dflt = Ok v -> exists d, data = PDict d /\ v = default dflt (d !! key).
Proof. destruct data; cbn; try discriminate. intros [= <-]. eauto. Qed.

(** *** switch.py *)

Module SwitchFacts.
Import ShellyAuthSwitch.

#[local] Arguments _set_auth_detect : simpl never.
#[local] Arguments _update_from_coordinator : simpl never.
#[local] Arguments _check_auth_status : simpl never.
#[local] Arguments _check_auth_status_try : simpl never.
#[local] Arguments _set_auth_try : simpl never.

Ltac open_switch w :=
  destruct w as [[dev host entry creds coord uid ison avail] cs lg hw ls];
  cbn [self calls log ha_writes listeners _device _host _entry _credentials
       _coordinator _attr_unique_id _attr_is_on _attr_available] in *.

(** The probe of [_set_auth] never raises: it makes one call and yields
    [probe_gen] of what the call got. *)
Lemma set_auth_detect_spec net (w : world switch) :
  _set_auth_detect net w =
    (Ok (probe_gen (net (calls w) (probe_request (_host (self w))))),
     snd (session_request net (probe_request (_host (self w))) w)).
Proof.
  open_switch w. unfold _set_auth_detect. monad_unfold. cbn.
  unfold probe_request, probe_gen.
  destruct (net cs _) as [[st js]|e]; cbn; [|reflexivity].
  destruct (st =? 200); cbn; [|reflexivity].
  destruct js as [[]|]; reflexivity.
Qed.

(** Reading the feed makes no network call, pushes no state and never
    raises. *)
Lemma update_from_coordinator_quiet (w : world switch) :
  fst (_update_from_coordinator w) = Ok tt
  /\ calls (snd (_update_from_coordinator w)) = calls w
  /\ ha_writes (snd (_update_from_coordinator w)) = ha_writes w.
Proof.
  open_switch w. unfold _update_from_coordinator, getattr_data, set_attr_is_on.
  monad_unfold. cbn.
  destruct coord as [[b [[d|]|]]|]; cbn; try destruct b; cbn; auto.
  repeat path_step; auto.
Qed.

(** A feed with a present explicit flag sets the state to that flag. *)
Lemma update_from_coordinator_flag (w : world switch) c d v :
  _coordinator (self w) = Some c ->
  coordinator_bool c = true ->
  coordinator_data c = Some (Mapping d) ->
  d !! "auth_en" = Some v -> v <> PNone ->
  _attr_is_on (self (snd (_update_from_coordinator w))) = v.
Proof.
  intros Hc Hb Hd Hv Hn. open_switch w. subst coord.
  unfold _update_from_coordinator, getattr_data, set_attr_is_on, feed_get.
  monad_unfold. cbn. rewrite Hb, Hd. cbn. rewrite Hv. cbn.
  destruct v; try congruence; reflexivity.
Qed.

(** A feed that holds neither flag leaves the state as it was. *)
Lemma update_from_coordinator_no_flag (w : world switch) c d :
  _coordinator (self w) = Some c ->
  coordinator_data c = Some (Mapping d) ->
  feed_get d "auth_en" = PNone -> feed_get d "auth" = PNone ->
  _attr_is_on (self (snd (_update_from_coordinator w))) = _attr_is_on (self w).
Proof.
  intros Hc Hd He Ha. open_switch w. subst coord.
  unfold _update_from_coordinator, getattr_data, set_attr_is_on.
  monad_unfold. cbn. rewrite Hd. destruct (coordinator_bool c); cbn; auto.
  rewrite He, Ha. reflexivity.
Qed.

(** C1. With an available push feed that holds the explicit [auth_en]
    flag at a value other than [None] (falsy values included), both read
    paths, attachment and feed update, adopt that value as the state and
    make no network call, whatever the legacy [auth] flag holds. *)
Theorem feed_flag_adopted net (w : world switch) c d v :
  _coordinator (self w) = Some c ->
  coordinator_bool c = true ->
  coordinator_data c = Some (Mapping d) ->
  d !! "auth_en" = Some v -> v <> PNone ->
  let attached := async_added_to_hass net w in
  let updated := _handle_coordinator_update w in
  (fst attached = Ok tt
   /\ _attr_is_on (self (snd attached)) = v
   /\ new_calls w (snd attached) = [])
  /\ (fst updated = Ok tt
      /\ _attr_is_on (self (snd updated)) = v
      /\ new_calls w (snd updated) = []).
Proof.
  intros Hc Hb Hd Hv Hn.
  pose proof (update_from_coordinator_flag w c d v Hc Hb Hd Hv Hn) as Hon.
  destruct (update_from_coordinator_quiet w) as (Hok & Hcalls & _).
  unfold new_calls.
  destruct (_update_from_coordinator w) as [res w1] eqn:Hu.
  cbn [fst snd] in Hon, Hok, Hcalls. subst res.
  split.
  - unfold async_added_to_hass. monad_unfold. cbn.
    unfold coordinator_truthy, hasattr_data. rewrite Hc, Hb, Hd. cbn.
    rewrite Hu. cbn. rewrite Hcalls, drop_own0. auto.
  - unfold _handle_coordinator_update. monad_unfold. rewrite Hu. cbn.
    rewrite Hcalls, drop_own0. auto.
Qed.

(** C3. With an empty writer password (absent or the empty string),
    [_set_auth] returns at once: one error record is logged, no network
    call is made, and the entity, its state included, is as before. *)
Theorem set_auth_empty_password net enable (w : world switch) :
  default "" (_credentials (self w) !! "password") = "" ->
  let run := _set_auth net enable w in
  fst run = Ok tt
  /\ new_calls w (snd run) = []
  /\ self (snd run) = self w
  /\ ha_writes (snd run) = ha_writes w
  /\ new_log w (snd run) =
       [mkLog ERROR "No password configured for device '%s'"
              [LVal (PStr (name (_device (self w))))]].
Proof.
  intros Hp. open_switch w. unfold _set_auth. monad_unfold. cbn.
  rewrite Hp. unfold str_truthy. cbn. norm_new. auto.
Qed.

(** Enumerate the paths of [_set_auth] on an opened world. *)
Ltac set_auth_paths :=
  unfold _set_auth, _set_auth_try, set_attr_is_on; monad_unfold; cbn;
  destruct (str_truthy _) eqn:Hpw; cbn;
  [rewrite set_auth_detect_spec; cbn; repeat path_step |].

(** C2. When the mutation call of [_set_auth] (the call after the probe)
    is answered, its status decides: on 200 the state becomes the requested
    value, the platform is told, and one INFO record reports the success;
    on any other status the state and the platform are left as they were
    and one ERROR record carries the status code. *)
Theorem set_auth_status_decides net enable (w : world switch) r resp :
  let run := _set_auth net enable w in
  let w' := snd run in
  new_calls w w' !! 1%nat = Some (r, Ok resp) ->
  fst run = Ok tt
  /\ (status resp = 200 ->
      _attr_is_on (self w') = PBool enable
      /\ ha_writes w' = S (ha_writes w)
      /\ exists rec, new_log w w' = [rec] /\ level rec = INFO)
  /\ (status resp <> 200 ->
      _attr_is_on (self w') = _attr_is_on (self w)
      /\ ha_writes w' = ha_writes w
      /\ exists rec, new_log w w' = [rec] /\ level rec = ERROR
                     /\ last (args rec) = Some (LVal (PInt (status resp)))).
Proof.
  cbv zeta. open_switch w. set_auth_paths; norm_new;
    try discriminate; intros [= <- <-]; (split; [reflexivity|]);
    split; intros Hst; try contradiction; eauto 10.
Qed.

(** C6, as the code has it.  On a Gen2/3 device (the probe is answered
    200 with a [gen] of 2 or more) and with a writer password, [_set_auth]
    sends, after the probe, exactly one request: a POST to
    [/rpc/Sys.SetAuth] whose body holds the writer's user and password and
    which carries no basic-auth when enabling, and whose body holds a null
    user and which carries basic-auth from the writer's credentials when
    disabling.  The one exception: when disabling with a user name that
    [aiohttp.BasicAuth] rejects (it holds a colon), nothing is sent after
    the probe. *)
Theorem set_auth_rpc_wire net enable (w : world switch) d g :
  let host := _host (self w) in
  let username := default "admin" (_credentials (self w) !! "username") in
  let password := default "" (_credentials (self w) !! "password") in
  let probe := probe_request host in
  let sent := rpc_set_auth_request host enable username password in
  let w' := snd (_set_auth net enable w) in
  str_truthy password = true ->
  net (calls w) probe = Ok (mkResponse 200 (Ok (PDict d))) ->
  d !! "gen" = Some g ->
  py_ge_int g 2 = Ok true ->
  new_calls w w' =
    (probe, net (calls w) probe)
    :: (if negb enable && has_colon username then []
        else [(sent, net (calls w ++ [(probe, net (calls w) probe)])%list sent)]).
Proof.
  cbv zeta. intros Hpw Hnet Hgen Hge. open_switch w.
  unfold _set_auth, _set_auth_try, set_attr_is_on. monad_unfold. cbn.
  rewrite Hpw. cbn. rewrite set_auth_detect_spec. cbn.
  rewrite Hnet. unfold probe_gen. cbn. rewrite Hgen. cbn. rewrite Hge. cbn.
  unfold rpc_set_auth_request.
  destruct enable; cbn; [|destruct (has_colon _); cbn];
    repeat path_step; norm_new; congruence.
Qed.

(** The poll of [_check_auth_status] is the only call it can make; it is
    not made only when [aiohttp.BasicAuth] rejects the reader's user name. *)
Lemma check_auth_status_calls net (w : world switch) :
  let w' := snd (_check_auth_status net w) in
  let username := default "" (data (_entry (self w)) !! "username") in
  let password := default "" (data (_entry (self w)) !! "password") in
  let poll := status_request (_host (self w)) (reader_auth username password) in
  fst (_check_auth_status net w) = Ok tt
  /\ ha_writes w' = ha_writes w
  /\ (new_calls w w' = [(poll, net (calls w) poll)]
      \/ (new_calls w w' = []
          /\ reader_auth username password <> None
          /\ has_colon username = true
          /\ _attr_is_on (self w') = _attr_is_on (self w))).
Proof.
  cbv zeta. open_switch w.
  unfold _check_auth_status, _check_auth_status_try, set_attr_is_on,
    status_request, reader_auth.
  monad_unfold. cbn.
  repeat path_step; norm_new; auto 10.
Qed.

(** On a 200 answer that names no generation 2 or 3, the poll adopts a
    present [auth] value. *)
Lemma check_auth_status_legacy net (w : world switch) d a :
  let w' := snd (_check_auth_status net w) in
  let username := default "" (data (_entry (self w)) !! "username") in
  let password := default "" (data (_entry (self w)) !! "password") in
  let poll := status_request (_host (self w)) (reader_auth username password) in
  new_calls w w' = [(poll, Ok (mkResponse 200 (Ok (PDict d))))] ->
  py_eq_int (default PNone (d !! "gen")) 2
    || py_eq_int (default PNone (d !! "gen")) 3 = false ->
  d !! "auth" = Some a -> a <> PNone ->
  _attr_is_on (self w') = a.
Proof.
  cbv zeta. intros Hcalls Hgen Ha Hn.
  destruct (check_auth_status_calls net w) as (_ & _ & [Hc|(Hc & _)]);
    rewrite Hc in Hcalls; [|discriminate].
  injection Hcalls as Hnet. revert Hc Hnet. open_switch w.
  unfold _check_auth_status, _check_auth_status_try, set_attr_is_on,
    status_request, reader_auth.
  monad_unfold. cbn.
  destruct (str_truthy _ && str_truthy _); cbn;
    [destruct (has_colon _); cbn; [norm_new; discriminate|]|];
    intros _ ->; cbn; rewrite !py_get_dict; cbn; rewrite Hgen, Ha; cbn;
    destruct a; try congruence; reflexivity.
Qed.

(** A 401 on the poll turns the state on. *)
Lemma check_auth_status_401 net (w : world switch) r resp :
  let w' := snd (_check_auth_status net w) in
  In (r, Ok resp) (new_calls w w') ->
  status resp = 401 ->
  _attr_is_on (self w') = PBool true.
Proof.
  cbv zeta. open_switch w.
  unfold _check_auth_status, _check_auth_status_try, set_attr_is_on.
  monad_unfold. cbn.
  repeat path_step; norm_new; cbn; intros Hin Hst;
    (first [destruct Hin as [Hin|[]] | destruct Hin]);
    simplify_eq; try lia; reflexivity.
Qed.

(** C7. If a poll made by the read at attachment is answered with
    HTTP 401, the state after the read is on. *)
Theorem read_401_enabled net (w : world switch) r resp :
  let w' := snd (async_added_to_hass net w) in
  In (r, Ok resp) (new_calls w w') ->
  status resp = 401 ->
  _attr_is_on (self w') = PBool true.
Proof.
  cbv zeta.
  pose proof (check_auth_status_401 net w r resp) as Hpoll.
  destruct (check_auth_status_calls net w) as (Hok & _ & _).
  destruct (update_from_coordinator_quiet w) as (Hok' & Hcalls & _).
  unfold async_added_to_hass. monad_unfold. cbn.
  destruct (coordinator_truthy _ && hasattr_data _); cbn.
  - destruct (_update_from_coordinator w) as [res w1].
    cbn [fst snd] in *. subst res. cbn. unfold new_calls. cbn.
    rewrite Hcalls, drop_own0. intros [].
  - destruct (_check_auth_status net w) as [res w1].
    cbn [fst snd] in *. subst res. cbn. exact Hpoll.
Qed.

Lemma names_user_probe host u : ~ names_user (probe_request host) u.
Proof. intros [(a & [=] & _)|[(d & [=] & _)|(p & [=] & _)]]. Qed.

Lemma names_user_mutation rpc host enable username password u :
  names_user (mutation_request rpc host enable username password) u ->
  u = username.
Proof.
  destruct rpc, enable; cbn;
    intros [(a & [= <-] & <-)|[(d & [= <-] & Hd)|(p & [= <-] & Hp)]];
    try reflexivity; vm_compute in Hd || vm_compute in Hp; congruence.
Qed.

(** C10. When the writer credentials hold no user name, every request
    of [_set_auth] that names a user names ["admin"], and nothing is logged
    or changed on account of the missing name: with a password, the probe
    goes out and the mutation call is the wire request for user
    ["admin"].  Only an empty password makes [_set_auth] return early. *)
Theorem set_auth_default_username net enable (w : world switch) :
  _credentials (self w) !! "username" = None ->
  let host := _host (self w) in
  let password := default "" (_credentials (self w) !! "password") in
  let probe := probe_request host in
  let o1 := net (calls w) probe in
  let w' := snd (_set_auth net enable w) in
  (forall r o u, In (r, o) (new_calls w w') -> names_user r u -> u = "admin")
  /\ (str_truthy password = true ->
      match py_ge_int (probe_gen o1) 2 with
      | Ok rpc =>
          exists o2,
            new_calls w w' =
              [(probe, o1);
               (mutation_request rpc host enable "admin" password, o2)]
      | Raise _ => new_calls w w' = [(probe, o1)]
      end).
Proof.
  cbv zeta. intros Hu. open_switch w.
  unfold _set_auth, _set_auth_try, set_attr_is_on. monad_unfold. cbn.
  rewrite Hu. cbn.
  destruct (str_truthy _) eqn:Hpw; cbn.
  2:{ norm_new. split; [intros ? ? ? []|discriminate]. }
  rewrite set_auth_detect_spec. cbn.
  change (has_colon "admin") with false.
  assert (Hin : forall rpc o2 r o u,
             In (r, o) [(probe_request host, net cs (probe_request host));
                        (mutation_request rpc host enable "admin"
                           (default "" (creds !! "password")), o2)] ->
             names_user r u -> u = "admin").
  { intros rpc o2 r o u [[= <- _]|[[= <- _]|[]]] Hn.
    - destruct (names_user_probe _ _ Hn).
    - apply (names_user_mutation _ _ _ _ _ _ Hn). }
  assert (Hin1 : forall r o u,
             In (r, o) [(probe_request host, net cs (probe_request host))] ->
             names_user r u -> u = "admin").
  { intros r o u [[= <- _]|[]] Hn. destruct (names_user_probe _ _ Hn). }
  destruct (py_ge_int _ 2) as [[|]|e]; cbn; [| |norm_new; auto];
    destruct enable; cbn; repeat path_step; norm_new;
    (split; [first [eapply (Hin true)|eapply (Hin false)|exact Hin1]
            |intros _; first [eexists; reflexivity|reflexivity]]).
Qed.

(** Attachment without an available feed is the poll, then a state push. *)
Lemma added_without_feed net (w : world switch) :
  coordinator_truthy (_coordinator (self w))
    && hasattr_data (_coordinator (self w)) = false ->
  self (snd (async_added_to_hass net w)) = self (snd (_check_auth_status net w))
  /\ calls (snd (async_added_to_hass net w))
     = calls (snd (_check_auth_status net w)).
Proof.
  intros Hfeed. destruct (check_auth_status_calls net w) as (Hok & _ & _).
  unfold async_added_to_hass. monad_unfold. cbn. rewrite Hfeed.
  destruct (_check_auth_status net w) as [res w1].
  cbn [fst snd] in *. subst res. cbn. auto.
Qed.

(** Attachment with an available feed reads the feed and subscribes. *)
Lemma added_with_feed net (w : world switch) :
  coordinator_truthy (_coordinator (self w))
    && hasattr_data (_coordinator (self w)) = true ->
  self (snd (async_added_to_hass net w)) = self (snd (_update_from_coordinator w))
  /\ calls (snd (async_added_to_hass net w)) = calls w.
Proof.
  intros Hfeed. destruct (update_from_coordinator_quiet w) as (Hok & Hcalls & _).
  unfold async_added_to_hass. monad_unfold. cbn. rewrite Hfeed.
  destruct (_update_from_coordinator w) as [res w1].
  cbn [fst snd] in *. subst res. cbn. auto.
Qed.

(** When both reader credentials are set and [aiohttp.BasicAuth]
    rejects the user name, the poll is not made and nothing changes. *)
Lemma check_auth_status_rejected net (w : world switch) :
  let w' := snd (_check_auth_status net w) in
  let username := default "" (data (_entry (self w)) !! "username") in
  let password := default "" (data (_entry (self w)) !! "password") in
  reader_auth username password <> None ->
  has_colon username = true ->
  new_calls w w' = [] /\ _attr_is_on (self w') = _attr_is_on (self w).
Proof.
  cbv zeta. open_switch w.
  unfold _check_auth_status, _check_auth_status_try, set_attr_is_on,
    reader_auth.
  monad_unfold. cbn.
  destruct (str_truthy _ && str_truthy _); cbn; [|congruence].
  intros _ ->. cbn. norm_new. auto.
Qed.

(** A feed that yields no usable flag, whatever its shape, leaves the
    state as it was. *)
Lemma update_from_coordinator_keeps (w : world switch) :
  (forall c d, _coordinator (self w) = Some c ->
               coordinator_data c = Some (Mapping d) ->
               feed_get d "auth_en" = PNone /\ feed_get d "auth" = PNone) ->
  _attr_is_on (self (snd (_update_from_coordinator w))) = _attr_is_on (self w).
Proof.
  intros Hno. open_switch w.
  unfold _update_from_coordinator, getattr_data, set_attr_is_on.
  monad_unfold. cbn.
  destruct coord as [[b [[d|]|]]|]; cbn; try destruct b; cbn; try reflexivity.
  destruct (Hno _ d eq_refl eq_refl) as [-> ->]. reflexivity.
Qed.

(** C5, as the code has it.  Without an available push feed (no
    coordinator, a falsy one, or one without [data]) the read at attachment
    makes one poll: a GET of the self-description endpoint [/shelly], with
    basic-auth when both reader user name and password are set; on a 200
    answer whose generation is neither 2 nor 3 it adopts a present [auth]
    value of that answer.  The one exception: when both reader credentials
    are set and [aiohttp.BasicAuth] rejects the user name (it holds a
    colon), no poll is made and the state stays as it was.  With an
    available feed no poll is made, and when the feed yields no usable flag
    (its data has no [get], or holds neither flag) the state stays as it
    was. *)
Theorem read_fallback_poll net (w : world switch) :
  let host := _host (self w) in
  let username := default "" (data (_entry (self w)) !! "username") in
  let password := default "" (data (_entry (self w)) !! "password") in
  let poll := status_request host (reader_auth username password) in
  let w' := snd (async_added_to_hass net w) in
  let available := coordinator_truthy (_coordinator (self w))
                     && hasattr_data (_coordinator (self w)) in
  (available = false ->
   (reader_auth username password = None \/ has_colon username = false ->
    new_calls w w' = [(poll, net (calls w) poll)])
   /\ (reader_auth username password <> None -> has_colon username = true ->
       new_calls w w' = [] /\ _attr_is_on (self w') = _attr_is_on (self w))
   /\ (forall d a,
         new_calls w w' = [(poll, Ok (mkResponse 200 (Ok (PDict d))))] ->
         py_eq_int (default PNone (d !! "gen")) 2
           || py_eq_int (default PNone (d !! "gen")) 3 = false ->
         d !! "auth" = Some a -> a <> PNone ->
         _attr_is_on (self w') = a))
  /\ (available = true ->
      new_calls w w' = []
      /\ ((forall c d, _coordinator (self w) = Some c ->
                       coordinator_data c = Some (Mapping d) ->
                       feed_get d "auth_en" = PNone
                       /\ feed_get d "auth" = PNone) ->
          _attr_is_on (self w') = _attr_is_on (self w))).
Proof.
  cbv zeta. split.
  - intros Hfeed. destruct (added_without_feed net w Hfeed) as [Hself Hcalls].
    unfold new_calls. rewrite Hself, Hcalls. split; [|split].
    + intros Hauth.
      destruct (check_auth_status_calls net w) as (_ & _ & [Hc|(_ & Hn & Hcol & _)]).
      * exact Hc.
      * destruct Hauth; congruence.
    + apply check_auth_status_rejected.
    + intros d a. apply check_auth_status_legacy.
  - intros Hfeed. destruct (added_with_feed net w Hfeed) as [Hself Hcalls].
    unfold new_calls. rewrite Hself, Hcalls, drop_own0. split; [reflexivity|].
    apply update_from_coordinator_keeps.
Qed.

(** A raise inside the poll leaves the entity as it was. *)
Lemma check_auth_status_try_raise net (w w1 : world switch) e :
  _check_auth_status_try net w = (Raise e, w1) -> self w1 = self w.
Proof.
  open_switch w. unfold _check_auth_status_try, set_attr_is_on.
  monad_unfold. cbn.
  repeat path_step; intros [= <-]; subst; reflexivity.
Qed.

(** ... and [_check_auth_status] swallows it. *)
Lemma check_auth_status_swallows net (w w1 : world switch) e :
  _check_auth_status_try net w = (Raise e, w1) ->
  fst (_check_auth_status net w) = Ok tt
  /\ _attr_is_on (self (snd (_check_auth_status net w))) = _attr_is_on (self w).
Proof.
  intros Hr. pose proof (check_auth_status_try_raise net w w1 e Hr) as Hself.
  unfold _check_auth_status. monad_unfold. rewrite Hr. cbn.
  rewrite Hself. auto.
Qed.

(** A raise inside the [try:] suite of [_set_auth] leaves the entity as it
    was, tells the platform nothing and logs nothing. *)
Lemma set_auth_try_raise net enable username password (w w1 : world switch) e :
  _set_auth_try net enable username password w = (Raise e, w1) ->
  self w1 = self w /\ ha_writes w1 = ha_writes w /\ log w1 = log w.
Proof.
  open_switch w. unfold _set_auth_try, set_attr_is_on. monad_unfold. cbn.
  rewrite set_auth_detect_spec. cbn.
  repeat path_step; intros [= <-]; subst; cbn; auto.
Qed.

(** [_set_auth] never raises: a raise inside its [try:] suite becomes one
    ERROR record that names the exception, with the state as it was. *)
Lemma set_auth_swallows net enable (w : world switch) :
  let username := default "admin" (_credentials (self w) !! "username") in
  let password := default "" (_credentials (self w) !! "password") in
  let run := _set_auth net enable w in
  fst run = Ok tt
  /\ (forall e w1,
        str_truthy password = true ->
        _set_auth_try net enable username password w = (Raise e, w1) ->
        _attr_is_on (self (snd run)) = _attr_is_on (self w)
        /\ ha_writes (snd run) = ha_writes w
        /\ exists rec, new_log w (snd run) = [rec]
                       /\ level rec = ERROR /\ last (args rec) = Some (LExn e)).
Proof.
  cbv zeta. split.
  - open_switch w. set_auth_paths; reflexivity.
  - intros e w1 Hpw Hr.
    destruct (set_auth_try_raise net enable _ _ w w1 e Hr) as (Hself & Hha & Hlog).
    unfold _set_auth. monad_unfold. cbn. rewrite Hpw. cbn. rewrite Hr. cbn.
    unfold new_log. cbn. rewrite Hself, Hha, Hlog, drop_own. eauto 10.
Qed.

(** Attachment and feed updates never raise. *)
Lemma read_never_raises net (w : world switch) :
  fst (async_added_to_hass net w) = Ok tt
  /\ fst (_handle_coordinator_update w) = Ok tt.
Proof.
  destruct (check_auth_status_calls net w) as (Hok & _ & _).
  destruct (update_from_coordinator_quiet w) as (Hok' & _ & _).
  destruct (_update_from_coordinator w) as [res w1] eqn:Hu.
  destruct (_check_auth_status net w) as [res' w2] eqn:Hcs.
  cbn [fst snd] in *. subst res res'.
  unfold async_added_to_hass, _handle_coordinator_update. monad_unfold. cbn.
  rewrite Hu.
  destruct (coordinator_truthy _ && hasattr_data _); cbn;
    rewrite ?Hu, ?Hcs; cbn; auto.
Qed.

(** Without a writer password [_set_auth] logs one ERROR record and
    leaves the entity and the platform as they were. *)
Lemma set_auth_no_password net enable (w : world switch) :
  let password := default "" (_credentials (self w) !! "password") in
  let run := _set_auth net enable w in
  str_truthy password = false ->
  _attr_is_on (self (snd run)) = _attr_is_on (self w)
  /\ ha_writes (snd run) = ha_writes w
  /\ exists rec, new_log w (snd run) = [rec] /\ level rec = ERROR.
Proof.
  cbv zeta. intros Hpw. open_switch w.
  unfold _set_auth. monad_unfold. cbn. rewrite Hpw. cbn. norm_new. eauto.
Qed.

(** When every call raises, so does the poll of the read ... *)
Lemma check_auth_status_try_fails net (w : world switch) :
  (forall h r, exists e, net h r = Raise e) ->
  exists e w1, _check_auth_status_try net w = (Raise e, w1).
Proof.
  intros Hfail. open_switch w. unfold _check_auth_status_try.
  monad_unfold. cbn.
  destruct (str_truthy _ && str_truthy _); cbn;
    try (destruct (has_colon _); cbn; [eauto|]);
    match goal with
    | |- context [net ?c ?r] => destruct (Hfail c r) as [e ->]
    end; cbn; eauto.
Qed.

(** ... and the [try:] suite of [_set_auth], after its probe. *)
Lemma set_auth_try_fails net enable username password (w : world switch) :
  (forall h r, exists e, net h r = Raise e) ->
  exists e w1, _set_auth_try net enable username password w = (Raise e, w1).
Proof.
  intros Hfail. open_switch w. unfold _set_auth_try. monad_unfold. cbn.
  rewrite set_auth_detect_spec. cbn.
  destruct (Hfail cs (probe_request host)) as [e0 ->].
  unfold probe_gen, py_ge_int. cbn.
  destruct enable; cbn;
    try (destruct (has_colon _); cbn; [eauto|]);
    match goal with
    | |- context [net ?c ?r] => destruct (Hfail c r) as [e ->]
    end; cbn; eauto.
Qed.

End SwitchFacts.

(** *** sensor.py *)

Module SensorFacts.
Import ShellyConnectivitySensor.

#[local] Arguments _detect_generation : simpl never.

Ltac open_sensor w :=
  destruct w as [[dev host entry uid value avail] cs lg hw ls];
  cbn [self calls log ha_writes listeners _device _host _entry
       _attr_unique_id _attr_native_value _attr_available] in *.

(** [_detect_generation] never raises: it makes one call and yields
    [probe_gen] of what the call got. *)
Lemma detect_generation_spec net (w : world sensor) :
  _detect_generation net w =
    (Ok (probe_gen (net (calls w) (probe_request (_host (self w))))),
     snd (session_request net (probe_request (_host (self w))) w)).
Proof.
  open_sensor w. unfold _detect_generation. monad_unfold. cbn.
  unfold probe_request, probe_gen.
  destruct (net cs _) as [[st js]|e]; cbn; [|reflexivity].
  destruct (st =? 200); cbn; [|reflexivity].
  destruct js as [[]|]; reflexivity.
Qed.

Ltac sensor_paths :=
  unfold _load_connectivity_config, _load_connectivity_config_try,
    _load_gen1_coiot, _load_gen2_websocket, set_attr_native_value;
  monad_unfold; cbn; rewrite detect_generation_spec; cbn.

(** The calls of [_load_connectivity_config]: the probe, then at most the
    one configuration read of the detected dialect. *)
Lemma load_connectivity_calls str_other net (w : world sensor) :
  let host := _host (self w) in
  let username := default "" (data (_entry (self w)) !! "username") in
  let password := default "" (data (_entry (self w)) !! "password") in
  let auth := reader_auth username password in
  let probe := probe_request host in
  let o1 := net (calls w) probe in
  let run := _load_connectivity_config str_other net w in
  fst run = Ok tt
  /\ match py_ge_int (probe_gen o1) 2 with
     | Raise _ => new_calls w (snd run) = [(probe, o1)]
     | Ok rpc =>
         let second := if rpc then get_config_request host auth
                       else settings_request host auth in
         (new_calls w (snd run) = [(probe, o1)]
          /\ auth <> None /\ has_colon username = true)
         \/ new_calls w (snd run) =
              [(probe, o1);
               (second, net (calls w ++ [(probe, o1)])%list second)]
     end.
Proof.
  cbv zeta. open_sensor w. sensor_paths.
  unfold get_config_request, settings_request, reader_auth.
  destruct (py_ge_int _ 2) as [[|]|e]; cbn; [| |norm_new; auto];
    repeat path_step; norm_new; auto 10.
Qed.




(** [_load_connectivity_config] never raises, and leaves a string in the
    sensor's value unless its second call was answered with a status other
    than 200 and 401, in which case the value stays as it was. *)
Lemma load_connectivity_value str_other net (w : world sensor) :
  let run := _load_connectivity_config str_other net w in
  fst run = Ok tt
  /\ ((exists s, _attr_native_value (self (snd run)) = PStr s)
      \/ (_attr_native_value (self (snd run)) = _attr_native_value (self w)
          /\ exists r resp,
               last (calls (snd run)) = Some (r, Ok resp)
               /\ status resp <> 200 /\ status resp <> 401)).
Proof.
  cbv zeta. open_sensor w. sensor_paths.
  destruct (py_ge_int _ 2) as [[|]|e]; cbn; [| |eauto];
    repeat path_step; (split; [reflexivity|]);
    first [left; eexists; reflexivity
          |right; split; [reflexivity|];
           do 2 eexists; rewrite last_snoc; eauto].
Qed.

(** When every call raises, the connectivity load ends at ["Unknown"]. *)
Lemma load_connectivity_total_failure str_other net (w : world sensor) :
  (forall h r, exists e, net h r = Raise e) ->
  _attr_native_value
    (self (snd (_load_connectivity_config str_other net w))) = PStr "Unknown".
Proof.
  intros Hfail. open_sensor w. sensor_paths.
  destruct (Hfail cs (probe_request host)) as [e0 ->].
  unfold probe_gen, py_ge_int. cbn.
  destruct (str_truthy _ && str_truthy _); cbn;
    try (destruct (has_colon _); cbn; [reflexivity|]);
    match goal with
    | |- context [net ?c ?r] => destruct (Hfail c r) as [e ->]
    end; reflexivity.
Qed.

(** Attaching the sensor never raises. *)
Lemma sensor_added_never_raises str_other net (w : world sensor) :
  fst (async_added_to_hass str_other net w) = Ok tt.
Proof.
  destruct (load_connectivity_value str_other net w) as [Hok _].
  unfold async_added_to_hass. monad_unfold.
  destruct (_load_connectivity_config str_other net w) as [res w1].
  cbn [fst] in Hok. subst res. reflexivity.
Qed.

End SensorFacts.

(** ** The claims that span both entities, and the concrete runs *)

Import Scenarios.

(** C8, as the code has it.  No exception leaves the read, [_set_auth] or
    the connectivity load.  A raise during the read's fallback poll leaves
    the state as it was, hence [None] (unknown) on the entity as
    constructed, which is the entity the poll is made for.  A raise inside
    the generation probe of [_set_auth] is swallowed and the device taken
    for Gen1; any other raise inside [_set_auth] gives a failure: one ERROR
    record, which names the exception, with the state and the platform as
    they were.  The connectivity load leaves a string in the sensor's
    value, except that when its second call is answered with a status
    other than 200 and 401 the value stays as it was.  When every call
    raises, both probes yield generation 1, the read ends at [None] on the
    entity as constructed, [_set_auth] at one ERROR record with the state as
    it was, and the connectivity load at ["Unknown"]. *)
Theorem no_exception_escapes str_other net enable
    (w : world ShellyAuthSwitch.switch)
    (ws : world ShellyConnectivitySensor.sensor) :
  let username := default "admin" (ShellyAuthSwitch._credentials (self w)
                                     !! "username") in
  let password := default "" (ShellyAuthSwitch._credentials (self w)
                                !! "password") in
  let constructed := exists info credentials,
                       self w = ShellyAuthSwitch.__init__ info credentials in
  let no_feed := ShellyAuthSwitch.coordinator_truthy
                   (ShellyAuthSwitch._coordinator (self w))
                 && ShellyAuthSwitch.hasattr_data
                      (ShellyAuthSwitch._coordinator (self w)) = false in
  let read := ShellyAuthSwitch._check_auth_status net w in
  let attach := ShellyAuthSwitch.async_added_to_hass net w in
  let set := ShellyAuthSwitch._set_auth net enable w in
  let describe :=
    ShellyConnectivitySensor._load_connectivity_config str_other net ws in
  (fst attach = Ok tt
   /\ fst (ShellyAuthSwitch._handle_coordinator_update w) = Ok tt
   /\ fst read = Ok tt
   /\ (forall e w1,
         ShellyAuthSwitch._check_auth_status_try net w = (Raise e, w1) ->
         ShellyAuthSwitch._attr_is_on (self (snd read))
         = ShellyAuthSwitch._attr_is_on (self w)
         /\ (constructed ->
             ShellyAuthSwitch._attr_is_on (self (snd read)) = PNone
             /\ (no_feed ->
                 ShellyAuthSwitch._attr_is_on (self (snd attach)) = PNone))))
  /\ (fst set = Ok tt
      /\ (forall e,
            net (calls w) (probe_request (ShellyAuthSwitch._host (self w)))
            = Raise e ->
            fst (ShellyAuthSwitch._set_auth_detect net w) = Ok (PInt 1))
      /\ (forall e w1,
            ShellyAuthSwitch._set_auth_try net enable username password w
            = (Raise e, w1) ->
            ShellyAuthSwitch._attr_is_on (self (snd set))
            = ShellyAuthSwitch._attr_is_on (self w)
            /\ ha_writes (snd set) = ha_writes w
            /\ exists rec,
                 new_log w (snd set) = [rec]
                 /\ level rec = ERROR
                 /\ (str_truthy password = true ->
                     last (args rec) = Some (LExn e))))
  /\ (fst describe = Ok tt
      /\ fst (ShellyConnectivitySensor.async_added_to_hass str_other net ws)
         = Ok tt
      /\ ((exists s,
             ShellyConnectivitySensor._attr_native_value (self (snd describe))
             = PStr s)
          \/ (ShellyConnectivitySensor._attr_native_value (self (snd describe))
              = ShellyConnectivitySensor._attr_native_value (self ws)
              /\ exists r resp,
                   last (calls (snd describe)) = Some (r, Ok resp)
                   /\ status resp <> 200 /\ status resp <> 401)))
  /\ ((forall h r, exists e, net h r = Raise e) ->
      fst (ShellyConnectivitySensor._detect_generation net ws) = Ok (PInt 1)
      /\ fst (ShellyAuthSwitch._set_auth_detect net w) = Ok (PInt 1)
      /\ (constructed ->
          ShellyAuthSwitch._attr_is_on (self (snd read)) = PNone
          /\ (no_feed ->
              ShellyAuthSwitch._attr_is_on (self (snd attach)) = PNone))
      /\ (ShellyAuthSwitch._attr_is_on (self (snd set))
          = ShellyAuthSwitch._attr_is_on (self w)
          /\ ha_writes (snd set) = ha_writes w
          /\ exists rec, new_log w (snd set) = [rec] /\ level rec = ERROR)
      /\ ShellyConnectivitySensor._attr_native_value (self (snd describe))
         = PStr "Unknown").
Proof.
  cbv zeta.
  assert (Hread : forall e w1,
            ShellyAuthSwitch._check_auth_status_try net w = (Raise e, w1) ->
            ShellyAuthSwitch._attr_is_on
              (self (snd (ShellyAuthSwitch._check_auth_status net w)))
            = ShellyAuthSwitch._attr_is_on (self w)
            /\ ((exists info credentials,
                   self w = ShellyAuthSwitch.__init__ info credentials) ->
                ShellyAuthSwitch._attr_is_on
                  (self (snd (ShellyAuthSwitch._check_auth_status net w)))
                = PNone
                /\ (ShellyAuthSwitch.coordinator_truthy
                      (ShellyAuthSwitch._coordinator (self w))
                    && ShellyAuthSwitch.hasattr_data
                         (ShellyAuthSwitch._coordinator (self w)) = false ->
                    ShellyAuthSwitch._attr_is_on
                      (self (snd (ShellyAuthSwitch.async_added_to_hass net w)))
                    = PNone))).
  { intros e w1 Hr.
    destruct (SwitchFacts.check_auth_status_swallows net w w1 e Hr) as [_ Hon].
    split; [exact Hon|]. intros (info & credentials & Hself).
    assert (Hnone : ShellyAuthSwitch._attr_is_on
                      (self (snd (ShellyAuthSwitch._check_auth_status net w)))
                    = PNone).
    { rewrite Hon, Hself. reflexivity. }
    split; [exact Hnone|]. intros Hfeed.
    destruct (SwitchFacts.added_without_feed net w Hfeed) as [-> _].
    exact Hnone. }
  assert (Hset : forall e w1,
            ShellyAuthSwitch._set_auth_try net enable
              (default "admin" (ShellyAuthSwitch._credentials (self w)
                                  !! "username"))
              (default "" (ShellyAuthSwitch._credentials (self w)
                             !! "password")) w = (Raise e, w1) ->
            ShellyAuthSwitch._attr_is_on
              (self (snd (ShellyAuthSwitch._set_auth net enable w)))
            = ShellyAuthSwitch._attr_is_on (self w)
            /\ ha_writes (snd (ShellyAuthSwitch._set_auth net enable w))
               = ha_writes w
            /\ exists rec,
                 new_log w (snd (ShellyAuthSwitch._set_auth net enable w)) = [rec]
                 /\ level rec = ERROR
                 /\ (str_truthy (default "" (ShellyAuthSwitch._credentials (self w)
                                               !! "password")) = true ->
                     last (args rec) = Some (LExn e))).
  { intros e w1 Hr.
    destruct (str_truthy (default "" (ShellyAuthSwitch._credentials (self w)
                                        !! "password"))) eqn:Hpw.
    - destruct (SwitchFacts.set_auth_swallows net enable w) as [_ Hs].
      destruct (Hs e w1 Hpw Hr) as (Hon & Hha & rec & Hlog & Hlv & Hlast).
      eauto 10.
    - destruct (SwitchFacts.set_auth_no_password net enable w Hpw)
        as (Hon & Hha & rec & Hlog & Hlv).
      split; [exact Hon|]. split; [exact Hha|].
      exists rec. split; [exact Hlog|]. split; [exact Hlv|]. discriminate. }
  split; [|split; [|split]].
  - destruct (SwitchFacts.read_never_raises net w) as [Ha Hu].
    destruct (SwitchFacts.check_auth_status_calls net w) as (Hok & _ & _).
    auto.
  - split; [apply (SwitchFacts.set_auth_swallows net enable w)|].
    split; [|exact Hset].
    intros e He. rewrite SwitchFacts.set_auth_detect_spec, He. reflexivity.
  - destruct (SensorFacts.load_connectivity_value str_other net ws) as [Hok Hv].
    split; [exact Hok|]. split; [|exact Hv].
    apply SensorFacts.sensor_added_never_raises.
  - intros Hfail. split; [|split; [|split; [|split]]].
    + destruct (Hfail (calls ws)
                  (probe_request (ShellyConnectivitySensor._host (self ws))))
        as [e He].
      rewrite SensorFacts.detect_generation_spec, He. reflexivity.
    + destruct (Hfail (calls w)
                  (probe_request (ShellyAuthSwitch._host (self w))))
        as [e He].
      rewrite SwitchFacts.set_auth_detect_spec, He. reflexivity.
    + destruct (SwitchFacts.check_auth_status_try_fails net w Hfail)
        as (e & w1 & Hr).
      apply (Hread e w1 Hr).
    + destruct (SwitchFacts.set_auth_try_fails net enable
                  (default "admin" (ShellyAuthSwitch._credentials (self w)
                                      !! "username"))
                  (default "" (ShellyAuthSwitch._credentials (self w)
                                 !! "password")) w Hfail)
        as (e & w1 & Hr).
      destruct (Hset e w1 Hr) as (Hon & Hha & rec & Hlog & Hlv & _).
      eauto 10.
    + apply SensorFacts.load_connectivity_total_failure. exact Hfail.
Qed.

(** C4, at a host whose self-description answers 200 with the generation
    as a string.  [_detect_generation] returns that string, not a
    generation; the comparison with 2 raises [TypeError]; the sensor ends
    at ["Unknown"] after the probe alone, and [_set_auth] logs an error
    after the probe alone and sends no mutation call. *)
Example detect_generation_not_a_number :
  fst (ShellyConnectivitySensor._detect_generation gen_as_string sensor_of)
  = Ok (PStr "2")
  /\ py_ge_int (PStr "2") 2 = Raise TypeError
  /\ ShellyConnectivitySensor._attr_native_value
       (self (snd (ShellyConnectivitySensor._load_connectivity_config
                     no_str gen_as_string sensor_of)))
     = PStr "Unknown"
  /\ map fst (calls (snd (ShellyConnectivitySensor._load_connectivity_config
                            no_str gen_as_string sensor_of)))
     = [probe_request "192.168.1.50"]
  /\ map fst (calls (snd (ShellyAuthSwitch._set_auth gen_as_string true
                            (switch_of None writer))))
     = [probe_request "192.168.1.50"]
  /\ log (snd (ShellyAuthSwitch._set_auth gen_as_string true
                 (switch_of None writer)))
     = [mkLog ERROR "Error setting auth on device '%s' at %s: %s"
              [LVal (PStr "Hallway relay"); LVal (PStr "192.168.1.50");
               LExn TypeError]].
Proof. repeat split; vm_compute; reflexivity. Qed.

(** C5 fails on Scenario A: the read at attachment calls [/shelly] only,
    never [/settings], and ends at [None] although the settings say that
    authentication is on; with a feed that holds neither flag no call is
    made at all; and neither is one made without a feed when the reader
    user name holds a colon and a password is set. *)
Lemma read_does_not_poll_settings :
  ~ polled "http://192.168.1.50/settings" (switch_of None writer)
      (snd (ShellyAuthSwitch.async_added_to_hass scenario_a
              (switch_of None writer)))
  /\ ShellyAuthSwitch._attr_is_on
       (self (snd (ShellyAuthSwitch.async_added_to_hass scenario_a
                     (switch_of None writer))))
     <> PBool true
  /\ new_calls (switch_of (Some feed_empty) writer)
       (snd (ShellyAuthSwitch.async_added_to_hass scenario_a
               (switch_of (Some feed_empty) writer)))
     = []
  /\ new_calls Installation.colon_reader
       (snd (ShellyAuthSwitch.async_added_to_hass scenario_a
               Installation.colon_reader))
     = [].
Proof.
  split; [|split; [|split]].
  - intros (r & o & Hin & Hurl). revert Hin. vm_compute.
    intros [[= <- _]|[]]. discriminate Hurl.
  - vm_compute. discriminate.
  - vm_compute. reflexivity.
  - vm_compute. reflexivity.
Qed.

(** C6 fails for a writer user name that holds a colon: disabling on
    Scenario B's device sends the probe and nothing after it, so that no
    POST reaches [/rpc/Sys.SetAuth]; the state stays on and one ERROR
    record names the [ValueError] of [aiohttp.BasicAuth].  Without a
    writer password nothing is sent at all. *)
Lemma set_auth_colon_sends_no_post :
  ~ polled "http://192.168.1.50/rpc/Sys.SetAuth" Installation.colon_switch
      (snd (ShellyAuthSwitch._set_auth gen3_device false
              Installation.colon_switch))
  /\ map fst (new_calls Installation.colon_switch
                (snd (ShellyAuthSwitch._set_auth gen3_device false
                        Installation.colon_switch)))
     = [probe_request "192.168.1.50"]
  /\ ShellyAuthSwitch._attr_is_on
       (self (snd (ShellyAuthSwitch._set_auth gen3_device false
                     Installation.colon_switch)))
     = PBool true
  /\ new_log Installation.colon_switch
       (snd (ShellyAuthSwitch._set_auth gen3_device false
               Installation.colon_switch))
     = [mkLog ERROR "Error setting auth on device '%s' at %s: %s"
              [LVal (PStr "Hallway relay"); LVal (PStr "192.168.1.50");
               LExn ValueError]]
  /\ new_calls (switch_of None writer_no_password)
       (snd (ShellyAuthSwitch._set_auth gen3_device true
               (switch_of None writer_no_password)))
     = [].
Proof.
  split; [|split; [|split; [|split]]].
  - intros (r & o & Hin & Hurl). revert Hin. vm_compute.
    intros [[= <- _]|[]]. discriminate Hurl.
  - vm_compute. reflexivity.
  - vm_compute. reflexivity.
  - vm_compute. reflexivity.
  - vm_compute. reflexivity.
Qed.

(** C8 fails twice.  On a Gen1 device whose [/settings] answers 500 the
    connectivity load ends with the sensor's value still [None], which is
    no string.  And on a device that refuses the probe while its login
    endpoint answers 200, the exception inside [_set_auth] is no failure:
    the state becomes the requested value, the platform is told, and the
    one record of the run is the INFO record of the success. *)
Lemma describe_none_and_probe_swallowed :
  (~ exists s,
       ShellyConnectivitySensor._attr_native_value
         (self (snd (ShellyConnectivitySensor._load_connectivity_config
                       no_str gen1_settings_500 sensor_of)))
       = PStr s)
  /\ (Installation.probe_down [] (probe_request "192.168.1.50")
      = Raise ClientError
      /\ ShellyAuthSwitch._attr_is_on
           (self (snd (ShellyAuthSwitch._set_auth Installation.probe_down true
                         (switch_of None writer))))
         = PBool true
      /\ ha_writes (snd (ShellyAuthSwitch._set_auth Installation.probe_down true
                           (switch_of None writer)))
         = S (ha_writes (switch_of None writer))
      /\ map level
           (new_log (switch_of None writer)
              (snd (ShellyAuthSwitch._set_auth Installation.probe_down true
                      (switch_of None writer))))
         = [INFO]).
Proof.
  split.
  - intros [s Hs]. vm_compute in Hs. discriminate Hs.
  - repeat split; vm_compute; reflexivity.
Qed.


(** *** The theorems at work on concrete devices *)

(** C1 on a feed that holds both flags, the explicit one off and the
    legacy one on: the state is off and nothing was called. *)
Lemma feed_flag_adopted_witness :
  ShellyAuthSwitch._attr_is_on
    (self (snd (ShellyAuthSwitch.async_added_to_hass unreachable
                  (switch_of (Some feed_both) writer))))
  = PBool false
  /\ new_calls (switch_of (Some feed_both) writer)
       (snd (ShellyAuthSwitch.async_added_to_hass unreachable
               (switch_of (Some feed_both) writer)))
     = [].
Proof.
  destruct (SwitchFacts.feed_flag_adopted unreachable
              (switch_of (Some feed_both) writer) feed_both
              (list_to_map [("auth_en", PBool false); ("auth", PBool true)])
              (PBool false))
    as [(_ & Hon & Hcalls) _].
  - reflexivity.
  - reflexivity.
  - reflexivity.
  - vm_compute. reflexivity.
  - discriminate.
  - split; [exact Hon|exact Hcalls].
Defined.

(** C3 with an empty password: nothing is called, the entity is as
    before. *)
Lemma set_auth_empty_password_witness :
  new_calls (switch_of None writer_no_password)
    (snd (ShellyAuthSwitch._set_auth gen3_device true
            (switch_of None writer_no_password)))
  = []
  /\ self (snd (ShellyAuthSwitch._set_auth gen3_device true
                  (switch_of None writer_no_password)))
     = self (switch_of None writer_no_password).
Proof.
  destruct (SwitchFacts.set_auth_empty_password gen3_device true
              (switch_of None writer_no_password))
    as (_ & Hcalls & Hself & _).
  - vm_compute. reflexivity.
  - split; [exact Hcalls|exact Hself].
Defined.

(** C2 on Scenario D: disabling on a Gen2 device that answers 403 leaves
    the state on and logs one error with the code 403. *)
Lemma set_auth_status_decides_witness :
  ShellyAuthSwitch._attr_is_on
    (self (snd (ShellyAuthSwitch._set_auth gen2_forbidden false enabled_switch)))
  = PBool true
  /\ exists rec,
       new_log enabled_switch
         (snd (ShellyAuthSwitch._set_auth gen2_forbidden false enabled_switch))
       = [rec]
       /\ level rec = ERROR
       /\ last (args rec) = Some (LVal (PInt 403)).
Proof.
  destruct (SwitchFacts.set_auth_status_decides gen2_forbidden false
              enabled_switch
              (rpc_set_auth_request "192.168.1.50" false "admin" "s3cret")
              (mkResponse 403 (Ok (PDict ∅))))
    as (_ & _ & Hfail).
  - vm_compute. reflexivity.
  - destruct Hfail as (Hon & _ & Hlog).
    + vm_compute. discriminate.
    + split; [exact Hon|exact Hlog].
Defined.

(** C6 on Scenario B's device: disabling sends the probe and then the
    POST with a null user and basic-auth. *)
Lemma set_auth_rpc_wire_witness :
  map fst (new_calls enabled_switch
             (snd (ShellyAuthSwitch._set_auth gen3_device false enabled_switch)))
  = [probe_request "192.168.1.50";
     mkRequest POST "http://192.168.1.50/rpc/Sys.SetAuth" None
               (Some (PDict {[ "user" := PNone ]}))
               (Some (mkBasicAuth "admin" "s3cret")) 10].
Proof.
  rewrite (SwitchFacts.set_auth_rpc_wire gen3_device false enabled_switch
             (list_to_map [("gen", PInt 3); ("auth_en", PBool false)])
             (PInt 3)).
  - vm_compute. reflexivity.
  - vm_compute. reflexivity.
  - vm_compute. reflexivity.
  - vm_compute. reflexivity.
  - vm_compute. reflexivity.
Defined.

(** C7 on a device that answers the poll with 401. *)
Lemma read_401_enabled_witness :
  ShellyAuthSwitch._attr_is_on
    (self (snd (ShellyAuthSwitch.async_added_to_hass locked_device
                  (switch_of None writer))))
  = PBool true.
Proof.
  apply (SwitchFacts.read_401_enabled locked_device (switch_of None writer)
           (status_request "192.168.1.50" None)
           (mkResponse 401 (Ok (PDict ∅)))).
  - vm_compute. left. reflexivity.
  - reflexivity.
Defined.

(** C10 with a password and no user name, on a Gen1 device: the probe,
    then the login request for user ["admin"]. *)
Lemma set_auth_default_username_witness :
  exists o2,
    new_calls (switch_of None writer_no_username)
      (snd (ShellyAuthSwitch._set_auth gen1_device true
              (switch_of None writer_no_username)))
    = [(probe_request "192.168.1.50",
        gen1_device [] (probe_request "192.168.1.50"));
       (login_request "192.168.1.50" true "admin" "s3cret", o2)].
Proof.
  destruct (SwitchFacts.set_auth_default_username gen1_device true
              (switch_of None writer_no_username))
    as [_ Hsent].
  - vm_compute. reflexivity.
  - apply Hsent. vm_compute. reflexivity.
Defined.

(** C5, as the code has it.  On a Gen1 device as shipped: one poll of
    [/shelly], and the state is the [auth] flag of its answer.  With a
    reader user name that holds a colon, and with a feed that holds
    neither flag: no call, and the state stays [None]. *)
Lemma read_fallback_poll_witness :
  map fst (new_calls (switch_of None writer)
             (snd (ShellyAuthSwitch.async_added_to_hass gen1_device
                     (switch_of None writer))))
  = [status_request "192.168.1.50" None]
  /\ ShellyAuthSwitch._attr_is_on
       (self (snd (ShellyAuthSwitch.async_added_to_hass gen1_device
                     (switch_of None writer))))
     = PBool false
  /\ (new_calls Installation.colon_reader
        (snd (ShellyAuthSwitch.async_added_to_hass gen1_device
                Installation.colon_reader))
      = []
      /\ ShellyAuthSwitch._attr_is_on
           (self (snd (ShellyAuthSwitch.async_added_to_hass gen1_device
                         Installation.colon_reader)))
         = PNone)
  /\ (new_calls (switch_of (Some feed_empty) writer)
        (snd (ShellyAuthSwitch.async_added_to_hass gen1_device
                (switch_of (Some feed_empty) writer)))
      = []
      /\ ShellyAuthSwitch._attr_is_on
           (self (snd (ShellyAuthSwitch.async_added_to_hass gen1_device
                         (switch_of (Some feed_empty) writer))))
         = PNone).
Proof.
  split; [|split; [|split]].
  - destruct (SwitchFacts.read_fallback_poll gen1_device (switch_of None writer))
      as [Hpoll _].
    destruct Hpoll as (Hcalls & _ & _); [reflexivity|].
    rewrite Hcalls; [reflexivity|left; reflexivity].
  - destruct (SwitchFacts.read_fallback_poll gen1_device (switch_of None writer))
      as [Hpoll _].
    destruct Hpoll as (_ & _ & Hauth); [reflexivity|].
    apply (Hauth (list_to_map [("type", PStr "SHSW-1"); ("auth", PBool false)])
                 (PBool false)).
    + vm_compute. reflexivity.
    + vm_compute. reflexivity.
    + vm_compute. reflexivity.
    + discriminate.
  - destruct (SwitchFacts.read_fallback_poll gen1_device
                Installation.colon_reader) as [Hpoll _].
    destruct Hpoll as (_ & Hrej & _); [reflexivity|].
    apply Hrej.
    + vm_compute. discriminate.
    + vm_compute. reflexivity.
  - destruct (SwitchFacts.read_fallback_poll gen1_device
                (switch_of (Some feed_empty) writer)) as [_ Hfeed].
    destruct Hfeed as [Hcalls Hkeep]; [reflexivity|].
    split; [exact Hcalls|].
    apply Hkeep. intros c d Hc Hd.
    injection Hc as <-. injection Hd as <-.
    split; vm_compute; reflexivity.
Defined.


(** C8, as the code has it, when every call times out: the probe yields
    generation 1, the read at attachment leaves the state [None],
    [_set_auth] logs one error that names the timeout, and the sensor ends
    at ["Unknown"]. *)
Lemma no_exception_escapes_witness :
  fst (ShellyConnectivitySensor._detect_generation unreachable sensor_of)
  = Ok (PInt 1)
  /\ ShellyAuthSwitch._attr_is_on
       (self (snd (ShellyAuthSwitch.async_added_to_hass unreachable
                     (switch_of None writer))))
     = PNone
  /\ (exists rec,
        new_log (switch_of None writer)
          (snd (ShellyAuthSwitch._set_auth unreachable true
                  (switch_of None writer)))
        = [rec]
        /\ level rec = ERROR /\ last (args rec) = Some (LExn TimeoutError))
  /\ ShellyConnectivitySensor._attr_native_value
       (self (snd (ShellyConnectivitySensor._load_connectivity_config no_str
                     unreachable sensor_of)))
     = PStr "Unknown"
  /\ fst (ShellyConnectivitySensor._load_connectivity_config no_str
            unreachable sensor_of)
     = Ok tt.
Proof.
  destruct (no_exception_escapes no_str unreachable true
              (switch_of None writer) sensor_of)
    as (_ & (_ & _ & Hset) & (Hok & _) & Htotal).
  destruct Htotal as (Hdetect & _ & Hread & _ & Hunknown).
  { intros h r. exists TimeoutError. reflexivity. }
  split; [exact Hdetect|]. split; [|split; [|split]].
  - destruct Hread as [_ Hattach].
    + exists (ShellyAuthSwitch.mkDeviceInfo relay "192.168.1.50" relay_entry None),
        writer. reflexivity.
    + apply Hattach. reflexivity.
  - destruct (Hset TimeoutError
                (snd (ShellyAuthSwitch._set_auth_try unreachable true
                        "admin" "s3cret" (switch_of None writer))))
      as (_ & _ & rec & Hlog & Hlevel & Hlast); [vm_compute; reflexivity|].
    exists rec. split; [exact Hlog|]. split; [exact Hlevel|].
    apply Hlast. vm_compute. reflexivity.
  - exact Hunknown.
  - exact Hok.
Defined.

(** ** Further properties of switch.py *)

Module SwitchMore.
Import ShellyAuthSwitch.
Import SwitchFacts.

#[local] Arguments _set_auth_detect : simpl never.
#[local] Arguments _update_from_coordinator : simpl never.
#[local] Arguments _check_auth_status : simpl never.
#[local] Arguments _check_auth_status_try : simpl never.
#[local] Arguments _set_auth_try : simpl never.

(** The calls of [_set_auth] with a writer password, by what the probe
    made of the device. *)
Lemma set_auth_calls net enable (w : world switch) rpc :
  let host := _host (self w) in
  let username := default "admin" (_credentials (self w) !! "username") in
  let password := default "" (_credentials (self w) !! "password") in
  let probe := probe_request host in
  let o1 := net (calls w) probe in
  let sent := mutation_request rpc host enable username password in
  str_truthy password = true ->
  py_ge_int (probe_gen o1) 2 = Ok rpc ->
  new_calls w (snd (_set_auth net enable w)) =
    (probe, o1)
    :: (if negb enable && has_colon username then []
        else [(sent, net (calls w ++ [(probe, o1)])%list sent)]).
Proof.
  cbv zeta. intros Hpw Hge. open_switch w.
  unfold _set_auth, _set_auth_try, set_attr_is_on. monad_unfold. cbn.
  rewrite Hpw. cbn. rewrite set_auth_detect_spec. cbn. rewrite Hge. cbn.
  unfold mutation_request, rpc_set_auth_request, login_request.
  destruct rpc, enable; cbn; try (destruct (has_colon _); cbn);
    repeat path_step; norm_new; congruence.
Qed.

(** A probe that is not answered 200 with a JSON object yields
    generation 1. *)
Lemma probe_gen_failure o :
  (forall d, o <> Ok (mkResponse 200 (Ok (PDict d)))) -> probe_gen o = PInt 1.
Proof.
  intros Hno. unfold probe_gen. destruct o as [[st js]|e]; cbn; [|reflexivity].
  destruct (Z.eqb_spec st 200) as [->|]; [|reflexivity].
  destruct js as [[]|]; try reflexivity. destruct (Hno d). reflexivity.
Qed.

(** X1. On a device the probe classifies as Gen1 (a generation below 2)
    and with a writer password, [_set_auth] sends, after the probe, one
    GET of [/settings/login]: [enabled=1] with the writer's user name and
    password in the query and no basic-auth when enabling, [enabled=0] in
    the query and basic-auth from the writer's credentials when disabling.
    (When disabling with a user name that [aiohttp.BasicAuth] rejects,
    nothing is sent.) *)
Theorem set_auth_login_wire net enable (w : world switch) :
  let host := _host (self w) in
  let username := default "admin" (_credentials (self w) !! "username") in
  let password := default "" (_credentials (self w) !! "password") in
  let probe := probe_request host in
  let o1 := net (calls w) probe in
  let sent := login_request host enable username password in
  str_truthy password = true ->
  py_ge_int (probe_gen o1) 2 = Ok false ->
  new_calls w (snd (_set_auth net enable w)) =
    (probe, o1)
    :: (if negb enable && has_colon username then []
        else [(sent, net (calls w ++ [(probe, o1)])%list sent)]).
Proof.
  cbv zeta. intros Hpw Hge.
  apply (set_auth_calls net enable w false Hpw Hge).
Qed.

(** X2. When the probe of [_set_auth] fails (it raises, is answered with
    a status other than 200, or with a body that is no JSON object) the
    device is taken for Gen1: the mutation call is the GET of
    [/settings/login]. *)
Theorem set_auth_probe_failure_is_gen1 net enable (w : world switch) :
  let host := _host (self w) in
  let username := default "admin" (_credentials (self w) !! "username") in
  let password := default "" (_credentials (self w) !! "password") in
  let probe := probe_request host in
  let o1 := net (calls w) probe in
  let sent := login_request host enable username password in
  str_truthy password = true ->
  (forall d, o1 <> Ok (mkResponse 200 (Ok (PDict d)))) ->
  new_calls w (snd (_set_auth net enable w)) =
    (probe, o1)
    :: (if negb enable && has_colon username then []
        else [(sent, net (calls w ++ [(probe, o1)])%list sent)]).
Proof.
  cbv zeta. intros Hpw Hfail.
  apply (set_auth_calls net enable w false Hpw).
  rewrite (probe_gen_failure _ Hfail). reflexivity.
Qed.

(** X3. [_set_auth] never retries: it adds at most two calls to the
    history, and the first of them is the probe, a GET of [/shelly]
    without credentials. *)
Theorem set_auth_no_retry net enable (w : world switch) :
  let w' := snd (_set_auth net enable w) in
  calls w' = (calls w ++ new_calls w w')%list
  /\ (length (new_calls w w') <= 2)%nat
  /\ (forall r o, new_calls w w' !! 0%nat = Some (r, o) ->
        r = probe_request (_host (self w))).
Proof.
  cbv zeta. open_switch w. set_auth_paths; norm_new; cbn;
    rewrite <- ?app_assoc, ?app_nil_r; cbn;
    (split; [reflexivity|]); (split; [lia|]);
    intros r o; try discriminate; intros [= <- _]; reflexivity.
Qed.

(** X4. [_set_auth] touches the state, or tells the platform, only after a
    mutation call answered with HTTP 200, and then the state is the
    requested value. *)
Theorem set_auth_state_only_on_200 net enable (w : world switch) :
  let w' := snd (_set_auth net enable w) in
  _attr_is_on (self w') <> _attr_is_on (self w)
    \/ ha_writes w' <> ha_writes w ->
  exists r resp,
    new_calls w w' !! 1%nat = Some (r, Ok resp)
    /\ status resp = 200
    /\ _attr_is_on (self w') = PBool enable
    /\ ha_writes w' = S (ha_writes w).
Proof.
  cbv zeta. open_switch w. set_auth_paths; norm_new;
    intros [Hne|Hne]; try (destruct Hne; reflexivity); eauto 10.
Qed.

(** X5. Every run of [_set_auth] writes exactly one log record, INFO or
    ERROR; it is INFO exactly when the platform is told of a new state. *)
Theorem set_auth_one_record net enable (w : world switch) :
  let w' := snd (_set_auth net enable w) in
  exists rec,
    new_log w w' = [rec]
    /\ (level rec = INFO \/ level rec = ERROR)
    /\ (level rec = INFO <-> ha_writes w' = S (ha_writes w)).
Proof.
  cbv zeta. open_switch w. set_auth_paths; norm_new;
    eexists; (split; [reflexivity|]); cbn;
    (split; [auto|]); split; intros H; try discriminate; try lia; reflexivity.
Qed.

(** X6. [_set_auth] does not look at the current state: from worlds that
    differ in [_attr_is_on] alone it makes the same calls, writes the same
    log and ends in the same state. *)
Theorem set_auth_ignores_state net enable (w : world switch) v :
  let w2 := snd (set_attr_is_on v w) in
  calls (snd (_set_auth net enable w2)) = calls (snd (_set_auth net enable w))
  /\ log (snd (_set_auth net enable w2)) = log (snd (_set_auth net enable w))
  /\ (ha_writes (snd (_set_auth net enable w)) <> ha_writes w ->
      self (snd (_set_auth net enable w2)) = self (snd (_set_auth net enable w))).
Proof.
  cbv zeta. open_switch w.
  unfold _set_auth, _set_auth_try, set_attr_is_on. monad_unfold. cbn.
  destruct (str_truthy _) eqn:Hpw; cbn;
    [rewrite !set_auth_detect_spec; cbn; repeat path_step|];
    repeat split; intros Hne; try reflexivity; destruct Hne; reflexivity.
Qed.

(** What [_check_auth_status] makes of a 200 answer with a JSON object:
    the flag of the answer's generation when present, else the first
    truthy of [auth_en] and [auth], else [auth]; [None] changes nothing. *)
Lemma check_auth_status_200 net (w : world switch) d :
  let w' := snd (_check_auth_status net w) in
  let username := default "" (data (_entry (self w)) !! "username") in
  let password := default "" (data (_entry (self w)) !! "password") in
  let poll := status_request (_host (self w)) (reader_auth username password) in
  let gen := default PNone (d !! "gen") in
  let auth_en := default PNone (d !! "auth_en") in
  let auth := default PNone (d !! "auth") in
  let primary := if py_eq_int gen 2 || py_eq_int gen 3 then auth_en else auth in
  new_calls w w' = [(poll, Ok (mkResponse 200 (Ok (PDict d))))] ->
  _attr_is_on (self w') =
    if is_not_None primary then primary
    else if is_not_None (py_or auth_en auth) then py_or auth_en auth
         else _attr_is_on (self w).
Proof.
  cbv zeta. intros Hcalls.
  destruct (check_auth_status_calls net w) as (_ & _ & [Hc|(Hc & _)]);
    rewrite Hc in Hcalls; [|discriminate].
  injection Hcalls as Hnet. revert Hc Hnet. open_switch w.
  unfold _check_auth_status, _check_auth_status_try, set_attr_is_on,
    status_request, reader_auth, py_or.
  monad_unfold. cbn.
  destruct (str_truthy _ && str_truthy _); cbn;
    [destruct (has_colon _); cbn; [norm_new; discriminate|]|];
    intros _ ->; cbn; rewrite !py_get_dict; cbn;
    generalize (default PNone (d !! "auth_en")) as ae;
    generalize (default PNone (d !! "auth")) as au; intros au ae;
    destruct (py_eq_int _ 2 || py_eq_int _ 3); cbn;
    rewrite ?py_get_dict; cbn;
    destruct ae, au; cbn; rewrite ?py_get_dict; cbn; try reflexivity;
    try (destruct (truthy _); cbn; rewrite ?py_get_dict; cbn; reflexivity).
Qed.

(** X7. On a 200 answer that names generation 2 or 3, the poll adopts a
    present [auth_en] value, falsy ones included. *)
Theorem check_auth_status_rpc_flag net (w : world switch) d a :
  let w' := snd (_check_auth_status net w) in
  let username := default "" (data (_entry (self w)) !! "username") in
  let password := default "" (data (_entry (self w)) !! "password") in
  let poll := status_request (_host (self w)) (reader_auth username password) in
  new_calls w w' = [(poll, Ok (mkResponse 200 (Ok (PDict d))))] ->
  py_eq_int (default PNone (d !! "gen")) 2
    || py_eq_int (default PNone (d !! "gen")) 3 = true ->
  d !! "auth_en" = Some a -> a <> PNone ->
  _attr_is_on (self w') = a.
Proof.
  cbv zeta. intros Hcalls Hgen Ha Hn.
  rewrite (check_auth_status_200 net w d Hcalls), Hgen, Ha. cbn.
  destruct a; try congruence; reflexivity.
Qed.

(** X8. On a 200 answer that names generation 2 or 3 but holds no
    [auth_en] (absent or null), the poll falls back to a present legacy
    [auth] value. *)
Theorem check_auth_status_rpc_legacy net (w : world switch) d a :
  let w' := snd (_check_auth_status net w) in
  let username := default "" (data (_entry (self w)) !! "username") in
  let password := default "" (data (_entry (self w)) !! "password") in
  let poll := status_request (_host (self w)) (reader_auth username password) in
  new_calls w w' = [(poll, Ok (mkResponse 200 (Ok (PDict d))))] ->
  py_eq_int (default PNone (d !! "gen")) 2
    || py_eq_int (default PNone (d !! "gen")) 3 = true ->
  default PNone (d !! "auth_en") = PNone ->
  d !! "auth" = Some a -> a <> PNone ->
  _attr_is_on (self w') = a.
Proof.
  cbv zeta. intros Hcalls Hgen He Ha Hn.
  rewrite (check_auth_status_200 net w d Hcalls), Hgen, He, Ha. cbn.
  unfold py_or, truthy. cbn. destruct a; try congruence; reflexivity.
Qed.

(** X9. On a 200 answer of another generation that holds no [auth], the
    fallback adopts [auth_en] only when it is truthy: a falsy [auth_en]
    (for instance [False]) leaves the state as it was. *)
Theorem check_auth_status_falsy_fallback net (w : world switch) d :
  let w' := snd (_check_auth_status net w) in
  let username := default "" (data (_entry (self w)) !! "username") in
  let password := default "" (data (_entry (self w)) !! "password") in
  let poll := status_request (_host (self w)) (reader_auth username password) in
  let auth_en := default PNone (d !! "auth_en") in
  new_calls w w' = [(poll, Ok (mkResponse 200 (Ok (PDict d))))] ->
  py_eq_int (default PNone (d !! "gen")) 2
    || py_eq_int (default PNone (d !! "gen")) 3 = false ->
  default PNone (d !! "auth") = PNone ->
  _attr_is_on (self w') =
    if truthy auth_en then auth_en else _attr_is_on (self w).
Proof.
  cbv zeta. intros Hcalls Hgen Ha.
  rewrite (check_auth_status_200 net w d Hcalls), Hgen, Ha. cbn.
  unfold py_or. destruct (truthy _) eqn:Ht; [|reflexivity].
  destruct (default PNone (d !! "auth_en")); try reflexivity.
  discriminate Ht.
Qed.

(** X10. A poll answered with a status other than 200 and 401 changes
    nothing: the entity is as before and nothing is logged. *)
Theorem check_auth_status_other_status net (w : world switch) r resp :
  let w' := snd (_check_auth_status net w) in
  new_calls w w' = [(r, Ok resp)] ->
  status resp <> 200 -> status resp <> 401 ->
  self w' = self w /\ new_log w w' = [].
Proof.
  cbv zeta. open_switch w.
  unfold _check_auth_status, _check_auth_status_try, set_attr_is_on.
  monad_unfold. cbn.
  repeat path_step; norm_new; try discriminate;
    intros [= <- <-] H200 H401; try contradiction; auto.
Qed.

(** A feed without the explicit flag but with a present legacy flag sets
    the state to the legacy flag. *)
Lemma update_from_coordinator_legacy (w : world switch) c d a :
  _coordinator (self w) = Some c ->
  coordinator_bool c = true ->
  coordinator_data c = Some (Mapping d) ->
  feed_get d "auth_en" = PNone ->
  d !! "auth" = Some a -> a <> PNone ->
  _attr_is_on (self (snd (_update_from_coordinator w))) = a.
Proof.
  intros Hc Hb Hd He Ha Hn. open_switch w. subst coord.
  unfold _update_from_coordinator, getattr_data, set_attr_is_on.
  monad_unfold. cbn. rewrite Hb, Hd. cbn. rewrite He. cbn.
  unfold feed_get. rewrite Ha. cbn.
  destruct a; try congruence; reflexivity.
Qed.

(** A feed update is the feed read, a state push and a debug record. *)
Lemma handle_update_self (w : world switch) :
  self (snd (_handle_coordinator_update w))
  = self (snd (_update_from_coordinator w)).
Proof.
  destruct (update_from_coordinator_quiet w) as (Hok & _ & _).
  unfold _handle_coordinator_update. monad_unfold.
  destruct (_update_from_coordinator w) as [res w1].
  cbn [fst snd] in *. subst res. reflexivity.
Qed.

(** X11. When the feed holds no explicit flag (absent or [None]) but a
    present legacy [auth] flag, both read paths adopt the legacy flag. *)
Theorem feed_legacy_flag_adopted net (w : world switch) c d a :
  _coordinator (self w) = Some c ->
  coordinator_bool c = true ->
  coordinator_data c = Some (Mapping d) ->
  feed_get d "auth_en" = PNone ->
  d !! "auth" = Some a -> a <> PNone ->
  _attr_is_on (self (snd (async_added_to_hass net w))) = a
  /\ _attr_is_on (self (snd (_handle_coordinator_update w))) = a.
Proof.
  intros Hc Hb Hd He Ha Hn.
  pose proof (update_from_coordinator_legacy w c d a Hc Hb Hd He Ha Hn) as Hon.
  assert (Hfeed : coordinator_truthy (_coordinator (self w))
                    && hasattr_data (_coordinator (self w)) = true).
  { unfold coordinator_truthy, hasattr_data. rewrite Hc, Hb, Hd. reflexivity. }
  destruct (added_with_feed net w Hfeed) as [Hself _].
  rewrite Hself, handle_update_self. auto.
Qed.

(** X12. A feed update never calls the device and never raises, whatever
    the feed holds: it pushes the state to the platform once and ends with
    a debug record that shows the state it pushed. *)
Theorem feed_update_quiet (w : world switch) :
  let run := _handle_coordinator_update w in
  fst run = Ok tt
  /\ new_calls w (snd run) = []
  /\ ha_writes (snd run) = S (ha_writes w)
  /\ last (log (snd run)) =
       Some (mkLog DEBUG "Coordinator update for '%s': auth=%s"
                   [LVal (PStr (name (_device (self w))));
                    LVal (_attr_is_on (self (snd run)))]).
Proof.
  cbv zeta.
  destruct (update_from_coordinator_quiet w) as (Hok & Hcalls & Hha).
  assert (Hdev : _device (self (snd (_update_from_coordinator w)))
                 = _device (self w)).
  { clear. open_switch w.
    unfold _update_from_coordinator, getattr_data, set_attr_is_on.
    monad_unfold. cbn.
    destruct coord as [[b [[d|]|]]|]; cbn; try destruct b; cbn; auto.
    repeat path_step; auto. }
  unfold _handle_coordinator_update, new_calls. monad_unfold.
  destruct (_update_from_coordinator w) as [res w1].
  cbn [fst snd] in *. subst res. cbn.
  rewrite Hcalls, Hha, Hdev, drop_own0, last_snoc. auto.
Qed.

(** X13. Attachment pushes the state once and never raises.  With an
    available feed it registers one listener and calls nothing; without
    one it registers none. *)
Theorem attach_subscribes_or_polls net (w : world switch) :
  let run := async_added_to_hass net w in
  let available := coordinator_truthy (_coordinator (self w))
                     && hasattr_data (_coordinator (self w)) in
  fst run = Ok tt
  /\ ha_writes (snd run) = S (ha_writes w)
  /\ listeners (snd run)
     = (if available then S (listeners w) else listeners w)
  /\ (available = true -> new_calls w (snd run) = []).
Proof.
  cbv zeta.
  destruct (update_from_coordinator_quiet w) as (Hok & Hcalls & Hha).
  destruct (check_auth_status_calls net w) as (Hok' & Hha' & _).
  assert (Hls : listeners (snd (_update_from_coordinator w)) = listeners w).
  { clear. open_switch w.
    unfold _update_from_coordinator, getattr_data, set_attr_is_on.
    monad_unfold. cbn.
    destruct coord as [[b [[d|]|]]|]; cbn; try destruct b; cbn; auto.
    repeat path_step; auto. }
  assert (Hls' : listeners (snd (_check_auth_status net w)) = listeners w).
  { clear. open_switch w.
    unfold _check_auth_status, _check_auth_status_try, set_attr_is_on.
    monad_unfold. cbn. repeat path_step; reflexivity. }
  destruct (_update_from_coordinator w) as [res w1] eqn:Hu.
  destruct (_check_auth_status net w) as [res' w2] eqn:Hcs.
  cbn [fst snd] in *. subst res res'.
  unfold async_added_to_hass, new_calls. monad_unfold. cbn.
  destruct (coordinator_truthy _ && hasattr_data _); cbn;
    rewrite ?Hu, ?Hcs; cbn.
  - rewrite Hcalls, Hha, Hls, drop_own0. auto.
  - rewrite Hha', Hls'. repeat split; auto. discriminate.
Qed.

(** X14. Without a truthy coordinator whose [data] has a callable [get],
    reading the feed does nothing at all: no state, no log, no error. *)
Theorem update_without_mapping (w : world switch) :
  (forall c d, _coordinator (self w) = Some c -> coordinator_bool c = true ->
               coordinator_data c <> Some (Mapping d)) ->
  _update_from_coordinator w = (Ok tt, w).
Proof.
  intros Hno. open_switch w.
  unfold _update_from_coordinator, getattr_data, set_attr_is_on.
  monad_unfold. cbn.
  destruct coord as [[b [[d|]|]]|]; cbn; try destruct b; cbn; try reflexivity.
  destruct (Hno _ d eq_refl eq_refl). reflexivity.
Qed.

End SwitchMore.

(** ** Further properties of sensor.py *)

Module SensorMore.
Import ShellyConnectivitySensor.
Import SensorFacts.

#[local] Arguments _detect_generation : simpl never.

(** X15. The connectivity load reads the configuration with one call after
    the probe: on Gen2/3 a POST of an empty JSON object to
    [/rpc/Sys.GetConfig], on Gen1 a GET of [/settings], each with
    basic-auth exactly when both reader user name and password are set,
    and with a timeout of 5.  Nothing follows it. *)
Theorem connectivity_read_wire str_other net (w : world sensor) r o :
  let host := _host (self w) in
  let username := default "" (data (_entry (self w)) !! "username") in
  let password := default "" (data (_entry (self w)) !! "password") in
  let auth := reader_auth username password in
  let o1 := net (calls w) (probe_request host) in
  let w' := snd (_load_connectivity_config str_other net w) in
  new_calls w w' !! 1%nat = Some (r, o) ->
  (exists rpc,
     py_ge_int (probe_gen o1) 2 = Ok rpc
     /\ r = if rpc then get_config_request host auth
            else settings_request host auth)
  /\ new_calls w w' = [(probe_request host, o1); (r, o)].
Proof.
  cbv zeta. intros Hsecond.
  destruct (load_connectivity_calls str_other net w) as [_ Hc].
  cbv zeta in Hc.
  destruct (py_ge_int _ 2) as [rpc|e].
  - destruct Hc as [[Hc _]|Hc]; rewrite Hc in Hsecond |- *;
      [discriminate|]. injection Hsecond as <- <-. eauto.
  - rewrite Hc in Hsecond. discriminate.
Qed.

(** X16. On the Gen1 path every failure of the settings read ends at
    ["Unknown"]: a call that raises, a 200 body that does not decode or is
    no JSON object, or a [coiot] entry that is no object.  (The Gen2/3
    path has its own fallback string.) *)
Theorem gen1_failure_unknown str_other net (w : world sensor) c1 r o :
  let host := _host (self w) in
  let gen := probe_gen (net (calls w) (probe_request host)) in
  let w' := snd (_load_connectivity_config str_other net w) in
  py_ge_int gen 2 = Ok false ->
  new_calls w w' = [c1; (r, o)] ->
  (exists e, o = Raise e)
  \/ (exists e, o = Ok (mkResponse 200 (Raise e)))
  \/ (exists v, o = Ok (mkResponse 200 (Ok v)) /\ forall d, v <> PDict d)
  \/ (exists d v, o = Ok (mkResponse 200 (Ok (PDict d)))
                  /\ d !! "coiot" = Some v /\ forall c, v <> PDict c) ->
  _attr_native_value (self w') = PStr "Unknown".
Proof.
  cbv zeta. intros Hge Hcalls Hfail.
  destruct (load_connectivity_calls str_other net w) as [_ Hc].
  cbv zeta in Hc. rewrite Hge in Hc.
  destruct Hc as [[Hc _]|Hc]; [rewrite Hc in Hcalls; discriminate|].
  pose proof Hc as Hc'. rewrite Hcalls in Hc'.
  injection Hc' as _ _ Hnet. revert Hc Hnet. clear Hcalls.
  revert Hge. open_sensor w. sensor_paths.
  unfold settings_request, reader_auth.
  intros ->; cbn.
  (destruct (str_truthy _ && str_truthy _); cbn;
     [destruct (has_colon _); cbn; [norm_new; discriminate|]|]);
    intros _ <-;
    destruct Hfail as [[e ->]|[[e ->]|[(v & -> & Hv)|(d & v & -> & Hd & Hv)]]];
    cbn; try reflexivity.
  all: try (destruct v; try reflexivity; destruct (Hv _ eq_refl)).
  all: rewrite py_get_dict, Hd; cbn;
    destruct v; try reflexivity; destruct (Hv _ eq_refl).
Qed.

(** X17. When the connectivity load makes no call after the probe (the
    generation does not compare with 2, or [aiohttp.BasicAuth] rejects the
    reader's user name) the sensor ends at ["Unknown"]. *)
Theorem probe_only_unknown str_other net (w : world sensor) c1 :
  let w' := snd (_load_connectivity_config str_other net w) in
  new_calls w w' = [c1] ->
  _attr_native_value (self w') = PStr "Unknown".
Proof.
  cbv zeta. open_sensor w. sensor_paths.
  destruct (py_ge_int _ 2) as [[|]|e]; cbn; [| |reflexivity];
    repeat path_step; norm_new; intros [=]; reflexivity.
Qed.

(** X18. [_detect_generation] never raises and makes exactly one call, a
    GET of [/shelly] without credentials.  It returns the [gen] entry of
    a 200 answer that is a JSON object holding one, and 1 in every other
    case. *)
Theorem detect_generation_value net (w : world sensor) :
  let probe := probe_request (_host (self w)) in
  let o1 := net (calls w) probe in
  let run := _detect_generation net w in
  new_calls w (snd run) = [(probe, o1)]
  /\ self (snd run) = self w
  /\ (forall d g, o1 = Ok (mkResponse 200 (Ok (PDict d))) ->
        d !! "gen" = Some g -> fst run = Ok g)
  /\ ((forall d g, o1 = Ok (mkResponse 200 (Ok (PDict d))) ->
         d !! "gen" <> Some g) ->
      fst run = Ok (PInt 1)).
Proof.
  cbv zeta. rewrite detect_generation_spec. cbn [fst snd].
  split; [|split; [|split]].
  - unfold session_request. norm_new. reflexivity.
  - reflexivity.
  - intros d g -> Hg. unfold probe_gen. cbn. rewrite Hg. reflexivity.
  - intros Hno. f_equal. unfold probe_gen.
    destruct (net _ _) as [[st js]|e]; cbn; [|reflexivity].
    destruct (Z.eqb_spec st 200) as [->|]; [|reflexivity].
    destruct js as [[]|]; try reflexivity.
    destruct (d !! "gen") as [g|] eqn:Hg; [|reflexivity].
    destruct (Hno d g eq_refl Hg).
Qed.

(** X19. The sensor's probe and the probe inside [_set_auth] agree: on
    the same host and against the same history they send the same request
    and read the same generation off what it gets. *)
Theorem probes_agree net (ws : world sensor)
    (w : world ShellyAuthSwitch.switch) :
  _host (self ws) = ShellyAuthSwitch._host (self w) ->
  calls ws = calls w ->
  fst (_detect_generation net ws)
  = fst (ShellyAuthSwitch._set_auth_detect net w)
  /\ calls (snd (_detect_generation net ws))
     = calls (snd (ShellyAuthSwitch._set_auth_detect net w)).
Proof.
  intros Hhost Hcalls.
  rewrite detect_generation_spec, SwitchFacts.set_auth_detect_spec.
  unfold session_request. cbn. rewrite Hhost, Hcalls. auto.
Qed.

End SensorMore.

(** ** The platform set-up: switch.py and sensor.py *)

Module PlatformFacts.

(** The inner loop of switch.py stops at the first Shelly entry. *)
Lemma switch_scan_entries hass dev entry_ids s :
  SwitchPlatform.scan_config_entries hass dev entry_ids s =
  match first_shelly_entry hass entry_ids with
  | None => s
  | Some (entry_id, config_entry) =>
      let host := data (config config_entry) !! "host" in
      if negb (host_truthy host) then
        SwitchPlatform.mkScan (SwitchPlatform.shelly_devices s)
          (SwitchPlatform.skipped_count s)
          (SwitchPlatform.scan_log s ++
           [mkLog DEBUG "Skipping Shelly device '%s' (no host in config)"
                  [LVal (PStr (display_name (reg_device dev)))]])
      else if bool_decide (default "" host ∈ (SwitchPlatform.shelly_devices s).*1)
           then s
           else SwitchPlatform.mkScan
                  (SwitchPlatform.shelly_devices s ++
                   [(default "" host,
                     ShellyAuthSwitch.mkDeviceInfo (reg_device dev)
                       (default "" host) (config config_entry)
                       (SwitchPlatform.coordinator_of hass entry_id))])
                  (SwitchPlatform.skipped_count s) (SwitchPlatform.scan_log s)
  end.
Proof.
  induction entry_ids as [|entry_id rest IH]; cbn; [reflexivity|].
  destruct (entries hass !! entry_id) as [config_entry|]; [|exact IH].
  destruct (String.eqb (domain config_entry) "shelly"); [reflexivity|exact IH].
Qed.

(** The inner loop of sensor.py stops at the same entry. *)
Lemma sensor_scan_entries hass dev entry_ids l :
  SensorPlatform.scan_config_entries hass dev entry_ids l =
  match first_shelly_entry hass entry_ids with
  | None => l
  | Some (entry_id, config_entry) =>
      let host := data (config config_entry) !! "host" in
      if host_truthy host && negb (bool_decide (default "" host ∈ l.*1))
      then (l ++ [(default "" host,
                   ShellyConnectivitySensor.mkDeviceInfo (reg_device dev)
                     (default "" host) (config config_entry))])%list
      else l
  end.
Proof.
  induction entry_ids as [|entry_id rest IH]; cbn; [reflexivity|].
  destruct (entries hass !! entry_id) as [config_entry|]; [|exact IH].
  destruct (String.eqb (domain config_entry) "shelly"); [reflexivity|exact IH].
Qed.

(** One device of the registry, in switch.py: either the dict stays and
    the device's host, if it stands for one, is already a key; or the
    device's host is new and is appended with what the device gave. *)
Lemma switch_scan_device hass s dev :
  (SwitchPlatform.shelly_devices (SwitchPlatform.scan_device hass s dev)
     = SwitchPlatform.shelly_devices s
   /\ (forall h, shelly_host hass dev = Some h ->
                 h ∈ (SwitchPlatform.shelly_devices s).*1))
  \/ (exists h entry_id config_entry,
        shelly_host hass dev = Some h
        /\ (h ∉ (SwitchPlatform.shelly_devices s).*1)
        /\ first_shelly_entry hass (config_entries dev)
           = Some (entry_id, config_entry)
        /\ SwitchPlatform.shelly_devices (SwitchPlatform.scan_device hass s dev)
           = (SwitchPlatform.shelly_devices s ++
              [(h, ShellyAuthSwitch.mkDeviceInfo (reg_device dev) h
                     (config config_entry)
                     (SwitchPlatform.coordinator_of hass entry_id))])%list).
Proof.
  unfold SwitchPlatform.scan_device, shelly_host.
  destruct (has_identifiers (reg_device dev)); cbn;
    [|left; split; [reflexivity|discriminate]].
  rewrite switch_scan_entries.
  destruct (first_shelly_entry hass (config_entries dev))
    as [[entry_id config_entry]|]; [|left; split; [reflexivity|discriminate]].
  cbn. destruct (data (config config_entry) !! "host") as [h|]; cbn;
    [|left; split; [reflexivity|discriminate]].
  destruct (str_truthy h); cbn; [|left; split; [reflexivity|discriminate]].
  case_bool_decide as Hin.
  - left. split; [reflexivity|]. intros h' [= <-]. exact Hin.
  - right. exists h, entry_id, config_entry. auto.
Qed.

(** The same device, in sensor.py. *)
Lemma sensor_scan_device hass l dev :
  SensorPlatform.scan_device hass l dev =
  match shelly_host hass dev, first_shelly_entry hass (config_entries dev) with
  | Some h, Some (_, config_entry) =>
      if bool_decide (h ∈ l.*1) then l
      else (l ++ [(h, ShellyConnectivitySensor.mkDeviceInfo (reg_device dev) h
                        (config config_entry))])%list
  | _, _ => l
  end.
Proof.
  unfold SensorPlatform.scan_device, shelly_host.
  destruct (has_identifiers (reg_device dev)); cbn; [|reflexivity].
  rewrite sensor_scan_entries.
  destruct (first_shelly_entry hass (config_entries dev))
    as [[entry_id config_entry]|]; [|reflexivity].
  cbn. destruct (data (config config_entry) !! "host") as [h|]; cbn;
    [|reflexivity].
  destruct (str_truthy h); cbn; [|reflexivity].
  case_bool_decide; reflexivity.
Qed.

Lemma switch_scan_invariant hass pre :
  SwitchPlatform.scanned hass pre
    (SwitchPlatform.shelly_devices
       (foldl (SwitchPlatform.scan_device hass)
              (SwitchPlatform.mkScan [] 0 []) pre)).
Proof.
  unfold SwitchPlatform.scanned.
  induction pre as [|dev pre IH] using rev_ind.
  - cbn. repeat split.
    + constructor.
    + intros Hin. inversion Hin.
    + intros (dev & Hin & _). inversion Hin.
    + intros h info Hin. inversion Hin.
  - rewrite foldl_snoc.
    set (s := foldl _ _ pre) in *.
    destruct IH as (Hnd & Hkeys & Hfirst).
    destruct (switch_scan_device hass s dev)
      as [[-> Hold]|(h & eid & ce & Hh & Hnew & Hfe & ->)].
    + repeat split.
      * exact Hnd.
      * intros Hin. apply Hkeys in Hin as (d & Hd & Hs).
        exists d. split; [apply elem_of_app; auto|exact Hs].
      * intros (d & Hd & Hs). apply elem_of_app in Hd as [Hd|Hd].
        -- apply Hkeys. eauto.
        -- apply list_elem_of_singleton in Hd as ->. apply Hold, Hs.
      * intros h info Hin.
        destruct (Hfirst h info Hin) as (p1 & d & p2 & e & c & -> & ?).
        exists p1, d, (p2 ++ [dev])%list, e, c. rewrite <- app_assoc. auto.
    + rewrite fmap_app. cbn. repeat split.
      * apply NoDup_app. repeat split; [exact Hnd| |apply NoDup_singleton].
        intros x Hx Hx'. apply list_elem_of_singleton in Hx' as ->. auto.
      * intros Hin. apply elem_of_app in Hin as [Hin|Hin].
        -- apply Hkeys in Hin as (d & Hd & Hs).
           exists d. split; [apply elem_of_app; auto|exact Hs].
        -- apply list_elem_of_singleton in Hin as ->.
           exists dev. split; [apply elem_of_app; right; constructor|exact Hh].
      * intros (d & Hd & Hs). apply elem_of_app.
        apply elem_of_app in Hd as [Hd|Hd].
        -- left. apply Hkeys. eauto.
        -- apply list_elem_of_singleton in Hd as ->. right.
           rewrite Hh in Hs. injection Hs as ->. constructor.
      * intros h' info Hin. apply elem_of_app in Hin as [Hin|Hin].
        -- destruct (Hfirst h' info Hin) as (p1 & d & p2 & e & c & -> & ?).
           exists p1, d, (p2 ++ [dev])%list, e, c. rewrite <- app_assoc. auto.
        -- apply list_elem_of_singleton in Hin. injection Hin as -> ->.
           exists pre, dev, [], eid, ce. repeat split; auto.
           intros d Hd Hs. apply Hnew, Hkeys. eauto.
Qed.

(** Each value of the dict carries its key as host. *)
Lemma scanned_hosts hass pre l :
  SwitchPlatform.scanned hass pre l -> map ShellyAuthSwitch.di_host l.*2 = l.*1.
Proof.
  unfold SwitchPlatform.scanned. intros (_ & _ & Hfirst).
  assert (Hall : forall h info, (h, info) ∈ l ->
                                ShellyAuthSwitch.di_host info = h).
  { intros h info Hin.
    destruct (Hfirst h info Hin) as (? & ? & ? & ? & ? & _ & _ & _ & _ & ->).
    reflexivity. }
  clear Hfirst. induction l as [|[h info] l IH]; [reflexivity|].
  cbn. f_equal.
  - apply Hall. constructor.
  - apply IH. intros h' info' Hin. apply Hall. constructor. exact Hin.
Qed.

(** The dict of sensor.py is the dict of switch.py without the
    coordinators. *)
Lemma sensor_scan_follows hass pre :
  foldl (SensorPlatform.scan_device hass) [] pre =
  map (fun p => (p.1, ShellyConnectivitySensor.mkDeviceInfo
                        (ShellyAuthSwitch.di_device p.2)
                        (ShellyAuthSwitch.di_host p.2)
                        (ShellyAuthSwitch.di_entry p.2)))
      (SwitchPlatform.shelly_devices
         (foldl (SwitchPlatform.scan_device hass)
                (SwitchPlatform.mkScan [] 0 []) pre)).
Proof.
  induction pre as [|dev pre IH] using rev_ind; [reflexivity|].
  rewrite !foldl_snoc, IH, sensor_scan_device.
  set (s := foldl _ (SwitchPlatform.mkScan [] 0 []) pre) in *.
  assert (Hkeys : forall (l : list (string * ShellyAuthSwitch.device_info)),
             (map (fun p => (p.1, ShellyConnectivitySensor.mkDeviceInfo
                                    (ShellyAuthSwitch.di_device p.2)
                                    (ShellyAuthSwitch.di_host p.2)
                                    (ShellyAuthSwitch.di_entry p.2))) l).*1
             = l.*1).
  { intros l. induction l as [|[] l IHl]; cbn; [reflexivity|]. f_equal. exact IHl. }
  rewrite Hkeys.
  destruct (switch_scan_device hass s dev)
    as [[-> Hold]|(h & eid & ce & Hh & Hnew & Hfe & ->)].
  - destruct (shelly_host hass dev) as [h|]; [|reflexivity].
    destruct (first_shelly_entry hass (config_entries dev)) as [[]|];
      [|reflexivity].
    rewrite bool_decide_eq_true_2; [reflexivity|]. apply Hold. reflexivity.
  - rewrite Hh, Hfe, bool_decide_eq_false_2 by exact Hnew.
    rewrite map_app. reflexivity.
Qed.

(** [skipped_count] counts the devices without identifiers. *)
Lemma switch_scan_skipped hass pre :
  SwitchPlatform.skipped_count
    (foldl (SwitchPlatform.scan_device hass) (SwitchPlatform.mkScan [] 0 []) pre)
  = Z.of_nat (length (List.filter
                        (fun dev => negb (has_identifiers (reg_device dev)))
                        pre)).
Proof.
  induction pre as [|dev pre IH] using rev_ind; [reflexivity|].
  rewrite foldl_snoc, List.filter_app, length_app.
  set (s := foldl _ _ pre) in *.
  unfold SwitchPlatform.scan_device. cbn [List.filter length].
  destruct (has_identifiers (reg_device dev)); cbn [negb length].
  - rewrite switch_scan_entries.
    destruct (first_shelly_entry _ _) as [[]|]; cbv zeta; [|lia].
    destruct (negb _); [cbn; lia|].
    case_bool_decide; cbn; lia.
  - cbn. lia.
Qed.

(** What a successful set-up of switch.py returns. *)
Lemma switch_setup_inv hass entry_id su :
  SwitchPlatform.async_setup_entry hass entry_id = Some su ->
  exists per_entry credentials,
    services_data hass = Some per_entry
    /\ per_entry !! entry_id = Some credentials
    /\ SwitchPlatform.added su =
       map (fun info => ShellyAuthSwitch.__init__ info credentials)
           (SwitchPlatform.shelly_devices
              (foldl (SwitchPlatform.scan_device hass)
                     (SwitchPlatform.mkScan [] 0 []) (devices hass))).*2
    /\ last (SwitchPlatform.setup_log su) =
       Some (mkLog INFO
               "Found %d unique Shelly devices (skipped %d without identifiers)"
               [LVal (PInt (Z.of_nat
                  (length (SwitchPlatform.shelly_devices
                     (foldl (SwitchPlatform.scan_device hass)
                            (SwitchPlatform.mkScan [] 0 []) (devices hass))))));
                LVal (PInt (SwitchPlatform.skipped_count
                  (foldl (SwitchPlatform.scan_device hass)
                         (SwitchPlatform.mkScan [] 0 []) (devices hass))))]).
Proof.
  unfold SwitchPlatform.async_setup_entry.
  destruct (services_data hass) as [per_entry|]; [|discriminate].
  destruct (per_entry !! entry_id) as [credentials|] eqn:Hc; [|discriminate].
  intros [= <-]. exists per_entry, credentials. cbn.
  rewrite last_snoc. auto.
Qed.

Lemma switch_hosts_of_added credentials (l : list ShellyAuthSwitch.device_info) :
  map ShellyAuthSwitch._host
      (map (fun info => ShellyAuthSwitch.__init__ info credentials) l)
  = map ShellyAuthSwitch.di_host l.
Proof. induction l; cbn; [reflexivity|]. f_equal. assumption. Qed.

(** X20. switch.py adds at most one switch per host: the hosts of the
    entities it hands to the platform are pairwise distinct. *)
Theorem switch_setup_hosts_distinct hass entry_id su :
  SwitchPlatform.async_setup_entry hass entry_id = Some su ->
  NoDup (map ShellyAuthSwitch._host (SwitchPlatform.added su)).
Proof.
  intros Hsu.
  destruct (switch_setup_inv hass entry_id su Hsu) as (pe & cr & _ & _ & -> & _).
  pose proof (switch_scan_invariant hass (devices hass)) as Hinv.
  rewrite switch_hosts_of_added, (scanned_hosts _ _ _ Hinv).
  apply Hinv.
Qed.

(** X21. The hosts that get a switch are exactly the hosts the devices of
    the registry stand for: a device counts when it has identifiers and
    the first of its config entries that is a Shelly entry names a
    non-empty host.  A device whose first Shelly entry has no host is
    passed over, whatever its later entries say. *)
Theorem switch_setup_hosts hass entry_id su h :
  SwitchPlatform.async_setup_entry hass entry_id = Some su ->
  h ∈ map ShellyAuthSwitch._host (SwitchPlatform.added su)
  <-> exists dev, dev ∈ devices hass /\ shelly_host hass dev = Some h.
Proof.
  intros Hsu.
  destruct (switch_setup_inv hass entry_id su Hsu) as (pe & cr & _ & _ & -> & _).
  pose proof (switch_scan_invariant hass (devices hass)) as Hinv.
  rewrite switch_hosts_of_added, (scanned_hosts _ _ _ Hinv).
  apply Hinv.
Qed.

(** X22. The switch of a host is built from the first device of the
    registry that stands for that host: it carries that device, the data
    of that device's first Shelly entry, the coordinator stored for that
    entry, and the installation's writer credentials, and its state
    starts as [None]. *)
Theorem switch_setup_first_device_wins hass entry_id su e :
  SwitchPlatform.async_setup_entry hass entry_id = Some su ->
  e ∈ SwitchPlatform.added su ->
  exists p1 dev p2 first_id config_entry,
    devices hass = (p1 ++ dev :: p2)%list
    /\ shelly_host hass dev = Some (ShellyAuthSwitch._host e)
    /\ (forall d, d ∈ p1 ->
                  shelly_host hass d <> Some (ShellyAuthSwitch._host e))
    /\ first_shelly_entry hass (config_entries dev)
       = Some (first_id, config_entry)
    /\ ShellyAuthSwitch._device e = reg_device dev
    /\ ShellyAuthSwitch._entry e = config config_entry
    /\ ShellyAuthSwitch._coordinator e
       = SwitchPlatform.coordinator_of hass first_id
    /\ (exists per_entry,
          services_data hass = Some per_entry
          /\ per_entry !! entry_id = Some (ShellyAuthSwitch._credentials e))
    /\ ShellyAuthSwitch._attr_is_on e = PNone.
Proof.
  intros Hsu He.
  destruct (switch_setup_inv hass entry_id su Hsu)
    as (pe & cr & Hpe & Hcr & Hadded & _).
  rewrite Hadded in He.
  apply list_elem_of_fmap in He as (info & -> & Hinfo).
  apply list_elem_of_fmap in Hinfo as ([h info'] & -> & Hin).
  destruct (switch_scan_invariant hass (devices hass)) as (_ & _ & Hfirst).
  destruct (Hfirst h info' Hin) as (p1 & dev & p2 & fid & ce & Hd & Hh & Hp1 & Hfe & ->).
  exists p1, dev, p2, fid, ce. cbn. eauto 12.
Qed.

(** X23. sensor.py finds the same hosts as switch.py, in the same order,
    and adds two sensors for each: the IP sensor and the connectivity
    sensor of the device, host and entry the switch of that host has. *)
Theorem platforms_agree hass entry_id su :
  SwitchPlatform.async_setup_entry hass entry_id = Some su ->
  SensorPlatform.added (SensorPlatform.async_setup_entry hass) =
  flat_map (fun e => SensorPlatform.sensors_of
                       (ShellyConnectivitySensor.mkDeviceInfo
                          (ShellyAuthSwitch._device e)
                          (ShellyAuthSwitch._host e)
                          (ShellyAuthSwitch._entry e)))
           (SwitchPlatform.added su).
Proof.
  intros Hsu.
  destruct (switch_setup_inv hass entry_id su Hsu) as (pe & cr & _ & _ & -> & _).
  unfold SensorPlatform.async_setup_entry. cbn.
  rewrite sensor_scan_follows.
  induction (SwitchPlatform.shelly_devices _) as [|[h info] l IH];
    [reflexivity|].
  cbn. do 2 f_equal. exact IH.
Qed.

(** X24. The summary record of switch.py counts right: its first number
    is the number of switches added, its second the number of registry
    devices without identifiers. *)
Theorem switch_setup_summary hass entry_id su :
  SwitchPlatform.async_setup_entry hass entry_id = Some su ->
  last (SwitchPlatform.setup_log su) =
  Some (mkLog INFO
          "Found %d unique Shelly devices (skipped %d without identifiers)"
          [LVal (PInt (Z.of_nat (length (SwitchPlatform.added su))));
           LVal (PInt (Z.of_nat
             (length (List.filter
                        (fun dev => negb (has_identifiers (reg_device dev)))
                        (devices hass)))))]).
Proof.
  intros Hsu.
  destruct (switch_setup_inv hass entry_id su Hsu) as (pe & cr & _ & _ & -> & ->).
  rewrite switch_scan_skipped, !length_map. reflexivity.
Qed.

End PlatformFacts.

(** ** __init__.py, config_flow.py and the entities' ids *)

Module IntegrationFacts.

(** The switches of a set-up carry the entry's data as credentials. *)
Lemma integration_setup_credentials hass entry_id entry st e :
  Integration.async_setup_entry hass entry_id entry = Some st ->
  e ∈ Integration.switches st ->
  ShellyAuthSwitch._credentials e = data entry.
Proof.
  unfold Integration.async_setup_entry, SwitchPlatform.async_setup_entry.
  cbn. rewrite lookup_insert_eq. intros [= <-]. cbn. intros He.
  apply list_elem_of_fmap in He as (info & -> & _). reflexivity.
Qed.

(** X25. Setting up the integration cannot fail on the credentials: the
    entry's data is stored before the platforms are set up, so switch.py
    finds it whatever [hass.data] held before.  The set-up returns [True],
    every switch carries the entry's data as writer credentials, and what
    was stored for other entries is untouched. *)
Theorem integration_setup hass entry_id entry :
  exists st,
    Integration.async_setup_entry hass entry_id entry = Some st
    /\ Integration.returned st = true
    /\ (forall e, e ∈ Integration.switches st ->
                  ShellyAuthSwitch._credentials e = data entry)
    /\ default ∅ (services_data (Integration.hass_after st)) !! entry_id
       = Some (data entry)
    /\ (forall other, other <> entry_id ->
          default ∅ (services_data (Integration.hass_after st)) !! other
          = default ∅ (services_data hass) !! other).
Proof.
  unfold Integration.async_setup_entry, SwitchPlatform.async_setup_entry.
  cbn. rewrite lookup_insert_eq. eexists. split; [reflexivity|]. cbn.
  repeat split.
  - intros e He. apply list_elem_of_fmap in He as (info & -> & _). reflexivity.
  - apply lookup_insert_eq.
  - intros other Hne. apply lookup_insert_ne. congruence.
Qed.

(** X26. Unloading after a set-up undoes the store: the entry's data is
    gone and everything else stored is as before the set-up; in
    particular, when nothing was stored for the entry before, the stored
    data is what it was. *)
Theorem setup_unload_round_trip hass entry_id entry st :
  Integration.async_setup_entry hass entry_id entry = Some st ->
  exists hass',
    Integration.async_unload_entry (Integration.hass_after st) entry_id true
    = Some (hass', true)
    /\ default ∅ (services_data hass')
       = delete entry_id (default ∅ (services_data hass))
    /\ (default ∅ (services_data hass) !! entry_id = None ->
        default ∅ (services_data hass') = default ∅ (services_data hass)).
Proof.
  unfold Integration.async_setup_entry.
  destruct (SwitchPlatform.async_setup_entry _ _); [|discriminate].
  intros [= <-]. unfold Integration.async_unload_entry. cbn.
  rewrite lookup_insert_eq. eexists. split; [reflexivity|]. cbn.
  rewrite delete_insert_eq. split; [reflexivity|].
  intros Hnone. apply delete_id. exact Hnone.
Qed.

(** X27. Unloading is not idempotent: after an unload that removed the
    entry's data, a second unload whose platforms unload again raises
    [KeyError]; and an unload whose platforms did not unload changes
    nothing and returns [False]. *)
Theorem unload_twice hass entry_id hass' b :
  Integration.async_unload_entry hass entry_id true = Some (hass', b) ->
  b = true
  /\ Integration.async_unload_entry hass' entry_id true = None
  /\ Integration.async_unload_entry hass entry_id false = Some (hass, false).
Proof.
  unfold Integration.async_unload_entry.
  destruct (services_data hass) as [per_entry|]; [|discriminate].
  destruct (per_entry !! entry_id); [|discriminate].
  intros [= <- <-]. cbn. rewrite lookup_delete_eq. auto.
Qed.

(** X28. Saving the options form as it is shown changes no credential
    that [_set_auth] goes by: the user name it would use (["admin"] when
    none is stored) and the password (empty when none is stored) are as
    before, and so is every other key of the entry's data. *)
Theorem options_resubmit_defaults config_entry form :
  snd (ConfigFlow.async_step_init config_entry None)
  = ConfigFlow.ShowForm "init" form ->
  let updated :=
    fst (ConfigFlow.async_step_init config_entry
           (Some (ConfigFlow.submit_defaults form))) in
  default "admin" (data updated !! "username")
  = default "admin" (data config_entry !! "username")
  /\ default "" (data updated !! "password")
     = default "" (data config_entry !! "password")
  /\ (forall k, k <> "username" -> k <> "password" ->
        data updated !! k = data config_entry !! k).
Proof.
  cbn. intros [= <-]. cbn.
  repeat split.
  - erewrite lookup_union_Some_l; [reflexivity|].
    rewrite lookup_insert_eq. reflexivity.
  - erewrite lookup_union_Some_l; [reflexivity|].
    rewrite lookup_insert_ne by discriminate.
    rewrite lookup_insert_eq. reflexivity.
  - intros k Hu Hp. apply lookup_union_r.
    rewrite !lookup_insert_ne by congruence. apply lookup_empty.
Qed.

(** X29. An installation whose config form was saved with an empty
    password is inert: set up from the entry the user step creates, no
    switch ever calls a device when toggled; it only logs the missing
    password. *)
Theorem empty_password_installation_inert hass entry_id input title entry_data st
    e net enable :
  default "" (input !! "password") = "" ->
  ConfigFlow.async_step_user [] (Some input)
  = ConfigFlow.CreateEntry title entry_data ->
  Integration.async_setup_entry hass entry_id (mkConfigEntry entry_data)
  = Some st ->
  e ∈ Integration.switches st ->
  new_calls (Scenarios.start e)
    (snd (ShellyAuthSwitch._set_auth net enable (Scenarios.start e))) = []
  /\ self (snd (ShellyAuthSwitch._set_auth net enable (Scenarios.start e))) = e.
Proof.
  intros Hpw [= _ <-] Hst He.
  pose proof (integration_setup_credentials hass entry_id _ st e Hst He) as Hcr.
  cbn in Hcr. destruct e as [dev host entry creds coord uid ison avail].
  cbn in Hcr. subst creds.
  unfold ShellyAuthSwitch._set_auth, Scenarios.start. monad_unfold. cbn.
  rewrite Hpw. unfold str_truthy. cbn. norm_new. auto.
Qed.

#[local] Arguments String.append !s1 s2 : simpl nomatch.

Lemma length_append (s t : string) :
  String.length (s +:+ t) = (String.length s + String.length t)%nat.
Proof. induction s as [|c s IH]; cbn; [reflexivity|]. rewrite IH. reflexivity. Qed.

Lemma append_cancel_r (s1 s2 x : string) : s1 +:+ x = s2 +:+ x -> s1 = s2.
Proof.
  revert s2. induction s1 as [|c s1 IH]; intros [|c' s2] Heq; cbn in Heq.
  - reflexivity.
  - apply (f_equal String.length) in Heq. cbn in Heq.
    rewrite length_append in Heq. lia.
  - apply (f_equal String.length) in Heq. cbn in Heq.
    rewrite length_append in Heq. lia.
  - injection Heq as -> Heq. f_equal. apply IH, Heq.
Qed.

(** Two strings whose non-empty endings end differently differ. *)
Lemma append_last_differs (s1 s2 t1 t2 : string) :
  (0 < String.length t1)%nat -> (0 < String.length t2)%nat ->
  String.get (String.length t1 - 1) t1 <> String.get (String.length t2 - 1) t2 ->
  s1 +:+ t1 <> s2 +:+ t2.
Proof.
  intros H1 H2 Hne Heq. apply Hne.
  pose proof (f_equal String.length Heq) as Hlen.
  rewrite !length_append in Hlen.
  rewrite (append_correct2 s1 t1), (append_correct2 s2 t2), Heq.
  f_equal. lia.
Qed.

(** X30. The unique ids of the entities never collide by kind: the id of
    a switch, of an IP sensor and of a connectivity sensor differ from one
    another whatever their devices, and two entities of one kind share an
    id only if their devices share theirs. *)
Theorem unique_ids (si si' : ShellyAuthSwitch.device_info) credentials credentials'
    (ni ni' : ShellyConnectivitySensor.device_info) :
  let switch_id info cr :=
    ShellyAuthSwitch._attr_unique_id (ShellyAuthSwitch.__init__ info cr) in
  let ip_id info :=
    ShellyIPSensor._attr_unique_id (ShellyIPSensor.__init__ info) in
  let connectivity_id info :=
    ShellyConnectivitySensor._attr_unique_id
      (ShellyConnectivitySensor.__init__ info) in
  switch_id si credentials <> ip_id ni
  /\ switch_id si credentials <> connectivity_id ni
  /\ ip_id ni <> connectivity_id ni'
  /\ (switch_id si credentials = switch_id si' credentials' ->
      id (ShellyAuthSwitch.di_device si) = id (ShellyAuthSwitch.di_device si'))
  /\ (ip_id ni = ip_id ni' ->
      id (ShellyConnectivitySensor.di_device ni)
      = id (ShellyConnectivitySensor.di_device ni'))
  /\ (connectivity_id ni = connectivity_id ni' ->
      id (ShellyConnectivitySensor.di_device ni)
      = id (ShellyConnectivitySensor.di_device ni')).
Proof.
  cbn. repeat split;
    try (apply append_last_differs; cbn; [lia|lia|discriminate]);
    apply append_cancel_r.
Qed.

End IntegrationFacts.

(** ** The further properties at work on concrete devices *)

Import Installation.

Lemma set_auth_login_wire_witness :
  map fst (new_calls (switch_of None writer)
             (snd (ShellyAuthSwitch._set_auth gen1_device true
                     (switch_of None writer))))
  = [probe_request "192.168.1.50";
     login_request "192.168.1.50" true "admin" "s3cret"].
Proof.
  rewrite (SwitchMore.set_auth_login_wire gen1_device true (switch_of None writer)).
  - vm_compute. reflexivity.
  - vm_compute. reflexivity.
  - vm_compute. reflexivity.
Defined.

Lemma set_auth_probe_failure_is_gen1_witness :
  map fst (new_calls enabled_switch
             (snd (ShellyAuthSwitch._set_auth unreachable false enabled_switch)))
  = [probe_request "192.168.1.50";
     login_request "192.168.1.50" false "admin" "s3cret"].
Proof.
  rewrite (SwitchMore.set_auth_probe_failure_is_gen1 unreachable false
             enabled_switch).
  - vm_compute. reflexivity.
  - vm_compute. reflexivity.
  - intros d. vm_compute. discriminate.
Defined.

Lemma set_auth_no_retry_witness :
  (length (new_calls enabled_switch
             (snd (ShellyAuthSwitch._set_auth gen3_device false enabled_switch)))
   <= 2)%nat
  /\ option_map fst
       (new_calls enabled_switch
          (snd (ShellyAuthSwitch._set_auth gen3_device false enabled_switch))
        !! 0%nat)
     = Some (probe_request "192.168.1.50").
Proof.
  destruct (SwitchMore.set_auth_no_retry gen3_device false enabled_switch)
    as (_ & Hlen & Hfirst).
  split; [exact Hlen|].
  destruct (new_calls _ _ !! 0%nat) as [[r o]|] eqn:Hcall.
  - exact (f_equal Some (Hfirst r o eq_refl)).
  - vm_compute in Hcall. discriminate Hcall.
Defined.

Lemma set_auth_state_only_on_200_witness :
  exists r resp,
    new_calls enabled_switch
      (snd (ShellyAuthSwitch._set_auth gen3_device false enabled_switch))
    !! 1%nat = Some (r, Ok resp)
    /\ status resp = 200.
Proof.
  destruct (SwitchMore.set_auth_state_only_on_200 gen3_device false
              enabled_switch) as (r & resp & Hcall & Hst & _).
  - left. vm_compute. discriminate.
  - exists r, resp. split; [exact Hcall|exact Hst].
Defined.

Lemma set_auth_one_record_witness :
  exists rec,
    new_log enabled_switch
      (snd (ShellyAuthSwitch._set_auth gen2_forbidden false enabled_switch))
    = [rec]
    /\ level rec = ERROR.
Proof.
  destruct (SwitchMore.set_auth_one_record gen2_forbidden false enabled_switch)
    as (rec & Hlog & [Hinfo|Herr] & Hiff).
  - apply Hiff in Hinfo. vm_compute in Hinfo. discriminate Hinfo.
  - exists rec. split; [exact Hlog|exact Herr].
Defined.

Lemma set_auth_ignores_state_witness :
  calls (snd (ShellyAuthSwitch._set_auth gen3_device true enabled_switch))
  = calls (snd (ShellyAuthSwitch._set_auth gen3_device true
                  (switch_of None writer)))
  /\ self (snd (ShellyAuthSwitch._set_auth gen3_device true enabled_switch))
     = self (snd (ShellyAuthSwitch._set_auth gen3_device true
                    (switch_of None writer))).
Proof.
  destruct (SwitchMore.set_auth_ignores_state gen3_device true
              (switch_of None writer) (PBool true)) as (Hcalls & _ & Hself).
  split; [exact Hcalls|]. apply Hself. vm_compute. discriminate.
Defined.

Lemma check_auth_status_rpc_flag_witness :
  ShellyAuthSwitch._attr_is_on
    (self (snd (ShellyAuthSwitch._check_auth_status gen3_device enabled_switch)))
  = PBool false.
Proof.
  apply (SwitchMore.check_auth_status_rpc_flag gen3_device enabled_switch
           (list_to_map [("gen", PInt 3); ("auth_en", PBool false)])).
  - vm_compute. reflexivity.
  - vm_compute. reflexivity.
  - vm_compute. reflexivity.
  - discriminate.
Defined.

Lemma check_auth_status_rpc_legacy_witness :
  ShellyAuthSwitch._attr_is_on
    (self (snd (ShellyAuthSwitch._check_auth_status gen2_legacy
                  (switch_of None writer))))
  = PBool true.
Proof.
  apply (SwitchMore.check_auth_status_rpc_legacy gen2_legacy
           (switch_of None writer)
           (list_to_map [("gen", PInt 2); ("auth", PBool true)])).
  - vm_compute. reflexivity.
  - vm_compute. reflexivity.
  - vm_compute. reflexivity.
  - vm_compute. reflexivity.
  - discriminate.
Defined.

Lemma check_auth_status_falsy_fallback_witness :
  ShellyAuthSwitch._attr_is_on
    (self (snd (ShellyAuthSwitch._check_auth_status explicit_off enabled_switch)))
  = PBool true.
Proof.
  rewrite (SwitchMore.check_auth_status_falsy_fallback explicit_off
             enabled_switch (list_to_map [("auth_en", PBool false)])).
  - vm_compute. reflexivity.
  - vm_compute. reflexivity.
  - vm_compute. reflexivity.
  - vm_compute. reflexivity.
Defined.

Lemma check_auth_status_other_status_witness :
  self (snd (ShellyAuthSwitch._check_auth_status failing_device enabled_switch))
  = self enabled_switch.
Proof.
  apply (SwitchMore.check_auth_status_other_status failing_device
           enabled_switch (status_request "192.168.1.50" None)
           (mkResponse 500 (Ok (PDict ∅)))).
  - vm_compute. reflexivity.
  - vm_compute. discriminate.
  - vm_compute. discriminate.
Defined.

Lemma feed_legacy_flag_adopted_witness :
  ShellyAuthSwitch._attr_is_on
    (self (snd (ShellyAuthSwitch._handle_coordinator_update
                  (switch_of (Some feed_legacy) writer))))
  = PBool true.
Proof.
  apply (SwitchMore.feed_legacy_flag_adopted unreachable
           (switch_of (Some feed_legacy) writer) feed_legacy
           (list_to_map [("auth", PBool true)])).
  - reflexivity.
  - reflexivity.
  - reflexivity.
  - vm_compute. reflexivity.
  - vm_compute. reflexivity.
  - discriminate.
Defined.

Lemma attach_subscribes_or_polls_witness :
  listeners (snd (ShellyAuthSwitch.async_added_to_hass unreachable
                    (switch_of (Some feed_both) writer))) = 1%nat
  /\ new_calls (switch_of (Some feed_both) writer)
       (snd (ShellyAuthSwitch.async_added_to_hass unreachable
               (switch_of (Some feed_both) writer))) = [].
Proof.
  destruct (SwitchMore.attach_subscribes_or_polls unreachable
              (switch_of (Some feed_both) writer)) as (_ & _ & Hls & Hcalls).
  split; [exact Hls|]. apply Hcalls. reflexivity.
Defined.

Lemma update_without_mapping_witness :
  ShellyAuthSwitch._update_from_coordinator (switch_of (Some feed_opaque) writer)
  = (Ok tt, switch_of (Some feed_opaque) writer).
Proof.
  apply SwitchMore.update_without_mapping.
  intros c d Hc _. vm_compute in Hc. injection Hc as <-. discriminate.
Defined.

Lemma connectivity_read_wire_witness :
  map fst (new_calls sensor_of
             (snd (ShellyConnectivitySensor._load_connectivity_config no_str
                     gen3_device sensor_of)))
  = [probe_request "192.168.1.50"; get_config_request "192.168.1.50" None].
Proof.
  destruct (SensorMore.connectivity_read_wire no_str gen3_device sensor_of
              (get_config_request "192.168.1.50" None)
              (gen3_device [] (get_config_request "192.168.1.50" None)))
    as [_ ->].
  - vm_compute. reflexivity.
  - reflexivity.
Defined.

Lemma gen1_failure_unknown_witness :
  ShellyConnectivitySensor._attr_native_value
    (self (snd (ShellyConnectivitySensor._load_connectivity_config no_str
                  gen1_garbled sensor_of)))
  = PStr "Unknown".
Proof.
  apply (SensorMore.gen1_failure_unknown no_str gen1_garbled sensor_of
           (probe_request "192.168.1.50",
            gen1_garbled [] (probe_request "192.168.1.50"))
           (settings_request "192.168.1.50" None)
           (Ok (mkResponse 200 (Raise JSONDecodeError)))).
  - vm_compute. reflexivity.
  - vm_compute. reflexivity.
  - right. left. exists JSONDecodeError. reflexivity.
Defined.

Lemma probe_only_unknown_witness :
  ShellyConnectivitySensor._attr_native_value
    (self (snd (ShellyConnectivitySensor._load_connectivity_config no_str
                  gen_as_string sensor_of)))
  = PStr "Unknown".
Proof.
  apply (SensorMore.probe_only_unknown no_str gen_as_string sensor_of
           (probe_request "192.168.1.50",
            gen_as_string [] (probe_request "192.168.1.50"))).
  vm_compute. reflexivity.
Defined.

Lemma detect_generation_value_witness :
  fst (ShellyConnectivitySensor._detect_generation gen3_device sensor_of)
  = Ok (PInt 3)
  /\ fst (ShellyConnectivitySensor._detect_generation failing_device sensor_of)
     = Ok (PInt 1).
Proof.
  split.
  - destruct (SensorMore.detect_generation_value gen3_device sensor_of)
      as (_ & _ & Hgen & _).
    apply (Hgen (list_to_map [("gen", PInt 3); ("auth_en", PBool false)])).
    + vm_compute. reflexivity.
    + vm_compute. reflexivity.
  - destruct (SensorMore.detect_generation_value failing_device sensor_of)
      as (_ & _ & _ & Hone).
    apply Hone. intros d g Ho. vm_compute in Ho. discriminate Ho.
Defined.

Lemma probes_agree_witness :
  fst (ShellyConnectivitySensor._detect_generation gen3_device sensor_of)
  = fst (ShellyAuthSwitch._set_auth_detect gen3_device enabled_switch).
Proof.
  apply (SensorMore.probes_agree gen3_device sensor_of enabled_switch).
  - reflexivity.
  - reflexivity.
Defined.

Lemma switch_setup_hosts_distinct_witness :
  match SwitchPlatform.async_setup_entry hass1 "svc" with
  | Some su => NoDup (map ShellyAuthSwitch._host (SwitchPlatform.added su))
  | None => False
  end.
Proof.
  destruct (SwitchPlatform.async_setup_entry hass1 "svc") as [su|] eqn:Hsu.
  - apply (PlatformFacts.switch_setup_hosts_distinct hass1 "svc" su Hsu).
  - vm_compute in Hsu. discriminate Hsu.
Defined.

Lemma switch_setup_hosts_witness :
  match SwitchPlatform.async_setup_entry hass1 "svc" with
  | Some su =>
      "192.168.1.51" ∈ map ShellyAuthSwitch._host (SwitchPlatform.added su)
  | None => False
  end.
Proof.
  destruct (SwitchPlatform.async_setup_entry hass1 "svc") as [su|] eqn:Hsu.
  - apply (PlatformFacts.switch_setup_hosts hass1 "svc" su "192.168.1.51" Hsu).
    exists (mkRegisteredDevice kitchen ["e2"]). split.
    + vm_compute. do 3 right. left.
    + vm_compute. reflexivity.
  - vm_compute in Hsu. discriminate Hsu.
Defined.

Lemma switch_setup_first_device_wins_witness :
  match SwitchPlatform.async_setup_entry hass1 "svc" with
  | Some su =>
      Forall (fun e => ShellyAuthSwitch._attr_is_on e = PNone
                       /\ exists dev, dev ∈ devices hass1
                                      /\ ShellyAuthSwitch._device e
                                         = reg_device dev)
             (SwitchPlatform.added su)
  | None => False
  end.
Proof.
  destruct (SwitchPlatform.async_setup_entry hass1 "svc") as [su|] eqn:Hsu.
  - apply Forall_forall. intros e He.
    destruct (PlatformFacts.switch_setup_first_device_wins hass1 "svc" su e Hsu He)
      as (p1 & dev & p2 & fid & ce & Hd & _ & _ & _ & Hdev & _ & _ & _ & Hon).
    split; [exact Hon|]. exists dev. split; [|exact Hdev].
    rewrite Hd. apply elem_of_app. right. constructor.
  - vm_compute in Hsu. discriminate Hsu.
Defined.

Lemma platforms_agree_witness :
  match SwitchPlatform.async_setup_entry hass1 "svc" with
  | Some su =>
      length (SensorPlatform.added (SensorPlatform.async_setup_entry hass1))
      = (2 * length (SwitchPlatform.added su))%nat
  | None => False
  end.
Proof.
  destruct (SwitchPlatform.async_setup_entry hass1 "svc") as [su|] eqn:Hsu.
  - rewrite (PlatformFacts.platforms_agree hass1 "svc" su Hsu).
    induction (SwitchPlatform.added su) as [|e l IH]; [reflexivity|].
    cbn [flat_map length app SensorPlatform.sensors_of]. rewrite IH. lia.
  - vm_compute in Hsu. discriminate Hsu.
Defined.

Lemma switch_setup_summary_witness :
  match SwitchPlatform.async_setup_entry hass1 "svc" with
  | Some su =>
      exists rec, last (SwitchPlatform.setup_log su) = Some rec
                  /\ level rec = INFO
  | None => False
  end.
Proof.
  destruct (SwitchPlatform.async_setup_entry hass1 "svc") as [su|] eqn:Hsu.
  - eexists. split.
    + apply (PlatformFacts.switch_setup_summary hass1 "svc" su Hsu).
    + reflexivity.
  - vm_compute in Hsu. discriminate Hsu.
Defined.

Lemma integration_setup_witness :
  exists st,
    Integration.async_setup_entry hass0 "svc" (mkConfigEntry writer) = Some st
    /\ Integration.returned st = true.
Proof.
  destruct (IntegrationFacts.integration_setup hass0 "svc" (mkConfigEntry writer))
    as (st & Hst & Hret & _).
  exists st. split; [exact Hst|exact Hret].
Defined.

Lemma setup_unload_round_trip_witness :
  match Integration.async_setup_entry hass0 "svc" (mkConfigEntry writer) with
  | Some st =>
      exists hass',
        Integration.async_unload_entry (Integration.hass_after st) "svc" true
        = Some (hass', true)
        /\ default ∅ (services_data hass') = ∅
  | None => False
  end.
Proof.
  destruct (Integration.async_setup_entry hass0 "svc" (mkConfigEntry writer))
    as [st|] eqn:Hst.
  - destruct (IntegrationFacts.setup_unload_round_trip hass0 "svc"
                (mkConfigEntry writer) st Hst) as (hass' & Hun & _ & Hsame).
    exists hass'. split; [exact Hun|]. apply Hsame. reflexivity.
  - vm_compute in Hst. discriminate Hst.
Defined.

Lemma unload_twice_witness :
  match Integration.async_unload_entry hass1 "svc" true with
  | Some (hass', _) =>
      Integration.async_unload_entry hass' "svc" true = None
  | None => False
  end.
Proof.
  destruct (Integration.async_unload_entry hass1 "svc" true)
    as [[hass' b]|] eqn:Hun.
  - apply (IntegrationFacts.unload_twice hass1 "svc" hass' b Hun).
  - vm_compute in Hun. discriminate Hun.
Defined.

Lemma options_resubmit_defaults_witness :
  default "admin"
    (data (fst (ConfigFlow.async_step_init (mkConfigEntry writer_no_username)
                  (Some (ConfigFlow.submit_defaults
                           [ConfigFlow.mkField "username" (Some "admin");
                            ConfigFlow.mkField "password" (Some "s3cret")]))))
     !! "username")
  = "admin".
Proof.
  destruct (IntegrationFacts.options_resubmit_defaults
              (mkConfigEntry writer_no_username)
              [ConfigFlow.mkField "username" (Some "admin");
               ConfigFlow.mkField "password" (Some "s3cret")])
    as (Huser & _).
  - vm_compute. reflexivity.
  - exact Huser.
Defined.

Lemma empty_password_installation_inert_witness :
  match Integration.async_setup_entry hass0 "svc"
          (mkConfigEntry writer_no_password) with
  | Some st =>
      Forall (fun e =>
                new_calls (start e)
                  (snd (ShellyAuthSwitch._set_auth gen3_device true (start e)))
                = [])
             (Integration.switches st)
  | None => False
  end.
Proof.
  destruct (Integration.async_setup_entry hass0 "svc"
              (mkConfigEntry writer_no_password)) as [st|] eqn:Hst.
  - apply Forall_forall. intros e He.
    apply (IntegrationFacts.empty_password_installation_inert hass0 "svc"
             writer_no_password "Shelly Services" writer_no_password st e
             gen3_device true).
    + vm_compute. reflexivity.
    + reflexivity.
    + exact Hst.
    + exact He.
  - vm_compute in Hst. discriminate Hst.
Defined.

Lemma unique_ids_witness :
  ShellyAuthSwitch._attr_unique_id
    (ShellyAuthSwitch.__init__
       (ShellyAuthSwitch.mkDeviceInfo relay "192.168.1.50" relay_entry None)
       writer)
  <> ShellyAuthSwitch._attr_unique_id
       (ShellyAuthSwitch.__init__
          (ShellyAuthSwitch.mkDeviceInfo kitchen "192.168.1.51" kitchen_entry None)
          writer).
Proof.
  intros Heq.
  destruct (IntegrationFacts.unique_ids
              (ShellyAuthSwitch.mkDeviceInfo relay "192.168.1.50" relay_entry None)
              (ShellyAuthSwitch.mkDeviceInfo kitchen "192.168.1.51" kitchen_entry None)
              writer writer
              (ShellyConnectivitySensor.mkDeviceInfo relay "192.168.1.50" relay_entry)
              (ShellyConnectivitySensor.mkDeviceInfo relay "192.168.1.50" relay_entry))
    as (_ & _ & _ & Hinj & _).
  apply Hinj in Heq. vm_compute in Heq. discriminate Heq.
Defined.
